(** * A shallow embedding of [custom_components/bj_led/bjled.py]

    The module drives one BJ_LED Bluetooth light: a retry decorator, the
    [BJLEDInstance] session object with its lazily established connection,
    the packet encoders and the idle-disconnect timer.

    Python objects are records, [None]-able attributes are [option]s, the
    coroutines are functions in a state-and-exception monad over a [World]
    that pairs the instance with the event loop and the Bluetooth transport.
    An exception does not roll the state back: a raising computation returns
    the world it reached.  Coroutines are run one at a time, so the
    [asyncio.Lock] of the instance is never contended and is left out. *)

From Stdlib Require Import ZArith List String Ascii Bool Lia QArith PeanoNat.
From Stdlib Require Import Floats Uint63.
Import ListNotations.

Local Open Scope string_scope.
Local Open Scope list_scope.
Local Open Scope Z_scope.

(* ===================================================================== *)
(** ** Python values                                                      *)
(* ===================================================================== *)

(** The exception classes the module meets.  [BleakNotFoundError] and
    [BleakDBusError] derive from [BleakError]; the others are unrelated. *)
Inductive ExcClass : Type :=
| ConfigEntryNotReady
| BleakError
| BleakNotFoundError
| BleakDBusError
| AttributeError
| EOFError
| BrokenPipeError
| TimeoutError
| TypeError
| ValueError
| IndexError.

Definition ExcClass_eqb (c d : ExcClass) : bool :=
  match c, d with
  | ConfigEntryNotReady, ConfigEntryNotReady
  | BleakError, BleakError
  | BleakNotFoundError, BleakNotFoundError
  | BleakDBusError, BleakDBusError
  | AttributeError, AttributeError
  | EOFError, EOFError
  | BrokenPipeError, BrokenPipeError
  | TimeoutError, TimeoutError
  | TypeError, TypeError
  | ValueError, ValueError
  | IndexError, IndexError => true
  | _, _ => false
  end.

Definition issubclass (c d : ExcClass) : bool :=
  match c, d with
  | BleakNotFoundError, BleakError => true
  | BleakDBusError, BleakError => true
  | _, _ => ExcClass_eqb c d
  end.

(** An exception object: its class and its message. *)
Record PyExc : Type := mkExc { exc_type : ExcClass; exc_args : string }.

(** [isinstance(err, classes)], the test an [except classes] clause makes. *)
Definition isinstance (err : PyExc) (classes : list ExcClass) : bool :=
  existsb (issubclass (exc_type err)) classes.

(** The outcome of running a piece of Python: a value or a raised exception. *)
Inductive Result (A : Type) : Type :=
| Ok (a : A)
| Raise (e : PyExc).
Arguments Ok {A} a.
Arguments Raise {A} e.

(** *** [int(a / b)] on integers

    [a / b] is Python's true division: both integers become binary64 floats
    and are divided with IEEE rounding; [int] then truncates towards zero.
    The kernel's primitive floats are binary64, so the model computes what
    Python computes whenever [a] and [b] are below [2^53] in absolute value
    (the conversion to float is exact there) and [b] is not zero. *)
Definition float_of_int (z : Z) : float :=
  if z <? 0 then PrimFloat.opp (PrimFloat.of_uint63 (Uint63.of_Z (- z)))
  else PrimFloat.of_uint63 (Uint63.of_Z z).

Definition int_of_float (f : float) : Z :=
  match Prim2SF f with
  | S754_finite s m e =>
      let mag :=
        if 0 <=? e then Z.shiftl (Z.pos m) e else Z.shiftr (Z.pos m) (- e) in
      if s then - mag else mag
  | _ => 0
  end.

Definition int_truediv (a b : Z) : Z :=
  int_of_float (PrimFloat.div (float_of_int a) (float_of_int b)).

(** [bytearray.fromhex] results are written as lists of byte values, and
    [bytearray.append] refuses anything outside [range(256)]. *)
Definition bytearray : Type := list Z.

Definition bytearray_append (b : bytearray) (x : Z) : Result bytearray :=
  if (0 <=? x) && (x <? 256) then Ok (b ++ [x])
  else Raise (mkExc ValueError "byte must be in range(0, 256)").

(** [str.lower] and [str.startswith] on ASCII text. *)
Definition ascii_lower (c : ascii) : ascii :=
  let n := nat_of_ascii c in
  if (Nat.leb 65 n && Nat.leb n 90)%bool then ascii_of_nat (n + 32) else c.

Fixpoint lower (s : string) : string :=
  match s with
  | EmptyString => EmptyString
  | String c r => String (ascii_lower c) (lower r)
  end.

Definition startswith (s p : string) : bool := String.prefix p s.

(* ===================================================================== *)
(** ** Module constants                                                   *)
(* ===================================================================== *)

Definition EFFECT_0x00 := "colorloop".
Definition EFFECT_0x01 := "red_fade".
Definition EFFECT_0x02 := "green_fade".
Definition EFFECT_0x03 := "blue_fade".
Definition EFFECT_0x04 := "yellow_fade".
Definition EFFECT_0x05 := "cyan_fade".
Definition EFFECT_0x06 := "purple_fade".
Definition EFFECT_0x07 := "white_fade".
Definition EFFECT_RED_GREEN_BLUE_CROSS_FADE := "rgb_cross_fade".
Definition EFFECT_0x08 := "rg_cross_fade".
Definition EFFECT_0x09 := "rb_cross_fade".
Definition EFFECT_0x0a := "gb_cross_fade".
Definition EFFECT_0x0c := "colorstrobe".
Definition EFFECT_0x0d := "red_strobe".
Definition EFFECT_0x0e := "green_strobe".
Definition EFFECT_0x0f := "blue_strobe".
Definition EFFECT_0x10 := "yellow_strobe".
Definition EFFECT_0x11 := "cyan_strobe".
Definition EFFECT_0x12 := "purple_strobe".
Definition EFFECT_0x13 := "white_strobe".
Definition EFFECT_CYCLE_RGB := "cycle_rgb".
Definition EFFECT_CYCLE_SEVEN_COLORS := "cycle_seven_colors".
Definition EFFECT_0x14 := "colorjump".
Definition EFFECT_CUSTOM := "custom".

(** The dict literal, in insertion order. *)
Definition EFFECT_MAP : list (string * Z) :=
  [ (EFFECT_0x00, 0x00); (EFFECT_0x01, 0x01); (EFFECT_0x02, 0x02);
    (EFFECT_0x03, 0x03); (EFFECT_0x04, 0x04); (EFFECT_0x05, 0x05);
    (EFFECT_0x06, 0x06); (EFFECT_0x07, 0x07); (EFFECT_0x08, 0x08);
    (EFFECT_0x09, 0x09); (EFFECT_0x0a, 0x0a); (EFFECT_0x0c, 0x0c);
    (EFFECT_0x0d, 0x0d); (EFFECT_0x0e, 0x0e); (EFFECT_0x0f, 0x0f);
    (EFFECT_0x10, 0x10); (EFFECT_0x11, 0x11); (EFFECT_0x12, 0x12);
    (EFFECT_0x13, 0x13); (EFFECT_0x14, 0x14) ].

(** [dict.get]: the value of the first (here: only) entry with that key. *)
Fixpoint dict_get {V : Type} (d : list (string * V)) (k : string) : option V :=
  match d with
  | [] => None
  | (k', v) :: r => if String.eqb k k' then Some v else dict_get r k
  end.

(** [sorted]: strings compare by code point, character by character. *)
Definition str_le (a b : string) : bool :=
  match String.compare a b with Gt => false | _ => true end.

Fixpoint insert_sorted (x : string) (l : list string) : list string :=
  match l with
  | [] => [x]
  | y :: r => if str_le x y then x :: l else y :: insert_sorted x r
  end.

Definition sorted (l : list string) : list string :=
  fold_right insert_sorted [] l.

Definition EFFECT_LIST : list string := sorted (map fst EFFECT_MAP).

(** [{v: k for k, v in EFFECT_MAP.items()}]: a later entry with the same
    value replaces an earlier one. *)
Fixpoint dict_set {K V : Type} (eqb : K -> K -> bool)
    (d : list (K * V)) (k : K) (v : V) : list (K * V) :=
  match d with
  | [] => [(k, v)]
  | (k', v') :: r =>
      if eqb k k' then (k, v) :: r else (k', v') :: dict_set eqb r k v
  end.

Definition EFFECT_ID_NAME : list (Z * string) :=
  fold_left (fun acc kv => dict_set Z.eqb acc (snd kv) (fst kv)) EFFECT_MAP [].

Definition NAME_ARRAY : list string := ["BJ_LED"].
Definition WRITE_CHARACTERISTIC_UUIDS : list string :=
  ["0000ee01-0000-1000-8000-00805f9b34fb"].
Definition TURN_ON_CMD : list bytearray := [[0x69; 0x96; 0x02; 0x01; 0x01]].
Definition TURN_OFF_CMD : list bytearray := [[0x69; 0x96; 0x02; 0x01; 0x00]].
Definition DEFAULT_ATTEMPTS : nat := 3.
Definition BLEAK_BACKOFF_TIME : Q := 0.25.
Definition RETRY_BACKOFF_EXCEPTIONS : list ExcClass := [BleakDBusError].

(** [BLEAK_RETRY_EXCEPTIONS] of the [bleak_retry_connector] package, which
    the module imports under the name [BLEAK_EXCEPTIONS]. *)
Definition BLEAK_EXCEPTIONS : list ExcClass :=
  [AttributeError; BleakError; EOFError; BrokenPipeError; TimeoutError].

(* ===================================================================== *)
(** ** The instance, the event loop and the transport                     *)
(* ===================================================================== *)

(** A GATT characteristic is identified by its UUID; a service collection is
    the list of the characteristics it offers. *)
Definition BleakGATTCharacteristic : Type := string.
Definition BleakGATTServiceCollection : Type := list BleakGATTCharacteristic.

Definition get_characteristic (services : BleakGATTServiceCollection)
    (uuid : string) : option BleakGATTCharacteristic :=
  find (String.eqb uuid) services.

(** A client object.  Whether it [is_connected] changes over time and is
    kept by the transport ([connected] below). *)
Record BleakClientWithServiceCache : Type := mkClient
  { client_id : nat;
    services : BleakGATTServiceCollection }.

Record BLEDevice : Type := mkDevice
  { device_name : string; device_address : string; device_rssi : Z }.

(** The attributes of a [BJLEDInstance] that the module reads or writes. *)
Record BJLEDInstance : Type := mkInstance
  { _mac : string;
    _reset : bool;
    _delay : option Z;
    _device : BLEDevice;
    _client : option BleakClientWithServiceCache;
    _disconnect_timer : option nat;
    _cached_services : option BleakGATTServiceCollection;
    _expected_disconnect : bool;
    _is_on : option bool;
    _rgb_color : option (Z * Z * Z);
    _brightness : option Z;
    _effect : option string;
    _write_uuid : option BleakGATTCharacteristic;
    _read_uuid : option BleakGATTCharacteristic;
    _turn_on_cmd : option bytearray;
    _turn_off_cmd : option bytearray;
    _model : option nat }.

Inductive LogLevel : Type := DEBUG | WARNING | ERROR.

(** What the instance does to the outside, in the order it does it. *)
Inductive Event : Type :=
| EvLog (level : LogLevel) (fmt : string)
| EvSleep (seconds : Q)
| EvConnect (cached_services : option BleakGATTServiceCollection)
| EvWrite (client : nat) (char : option BleakGATTCharacteristic)
    (data : option bytearray)
| EvDisconnect (client : nat)
| EvCallLater (delay : Z) (handle : nat)
| EvCancel (handle : nat)
| EvCreateTask
| EvTaskException (e : PyExc).

(** An answer of the transport to one call. *)
Inductive Reply : Type :=
| ReplyOk (svc : BleakGATTServiceCollection)
| ReplyErr (e : PyExc).

(** The surroundings of the instance: which clients are connected, the
    timers pending in the event loop, the tasks created and not yet run, a
    supply of fresh handles, the transport's answers ([oracle], read at
    [tick]) and the trace of events, newest first. *)
Record Env : Type := mkEnv
  { connected : list nat;
    timers : list nat;
    tasks : nat;
    next_id : nat;
    oracle : nat -> Reply;
    tick : nat;
    trace : list Event }.

Record World : Type := mkWorld { self : BJLEDInstance; env : Env }.

Definition upd_self (f : BJLEDInstance -> BJLEDInstance) (w : World) : World :=
  mkWorld (f (self w)) (env w).

Definition upd_env (f : Env -> Env) (w : World) : World :=
  mkWorld (self w) (f (env w)).

(** Attribute assignments. *)
Definition set_client v (s : BJLEDInstance) : BJLEDInstance :=
  mkInstance (_mac s) (_reset s) (_delay s) (_device s) v
    (_disconnect_timer s) (_cached_services s) (_expected_disconnect s)
    (_is_on s) (_rgb_color s) (_brightness s) (_effect s) (_write_uuid s)
    (_read_uuid s) (_turn_on_cmd s) (_turn_off_cmd s) (_model s).

Definition set_disconnect_timer v (s : BJLEDInstance) : BJLEDInstance :=
  mkInstance (_mac s) (_reset s) (_delay s) (_device s) (_client s)
    v (_cached_services s) (_expected_disconnect s)
    (_is_on s) (_rgb_color s) (_brightness s) (_effect s) (_write_uuid s)
    (_read_uuid s) (_turn_on_cmd s) (_turn_off_cmd s) (_model s).

Definition set_cached_services v (s : BJLEDInstance) : BJLEDInstance :=
  mkInstance (_mac s) (_reset s) (_delay s) (_device s) (_client s)
    (_disconnect_timer s) v (_expected_disconnect s)
    (_is_on s) (_rgb_color s) (_brightness s) (_effect s) (_write_uuid s)
    (_read_uuid s) (_turn_on_cmd s) (_turn_off_cmd s) (_model s).

Definition set_expected_disconnect v (s : BJLEDInstance) : BJLEDInstance :=
  mkInstance (_mac s) (_reset s) (_delay s) (_device s) (_client s)
    (_disconnect_timer s) (_cached_services s) v
    (_is_on s) (_rgb_color s) (_brightness s) (_effect s) (_write_uuid s)
    (_read_uuid s) (_turn_on_cmd s) (_turn_off_cmd s) (_model s).

Definition set_is_on v (s : BJLEDInstance) : BJLEDInstance :=
  mkInstance (_mac s) (_reset s) (_delay s) (_device s) (_client s)
    (_disconnect_timer s) (_cached_services s) (_expected_disconnect s)
    v (_rgb_color s) (_brightness s) (_effect s) (_write_uuid s)
    (_read_uuid s) (_turn_on_cmd s) (_turn_off_cmd s) (_model s).

Definition set_rgb v (s : BJLEDInstance) : BJLEDInstance :=
  mkInstance (_mac s) (_reset s) (_delay s) (_device s) (_client s)
    (_disconnect_timer s) (_cached_services s) (_expected_disconnect s)
    (_is_on s) v (_brightness s) (_effect s) (_write_uuid s)
    (_read_uuid s) (_turn_on_cmd s) (_turn_off_cmd s) (_model s).

Definition set_brightness v (s : BJLEDInstance) : BJLEDInstance :=
  mkInstance (_mac s) (_reset s) (_delay s) (_device s) (_client s)
    (_disconnect_timer s) (_cached_services s) (_expected_disconnect s)
    (_is_on s) (_rgb_color s) v (_effect s) (_write_uuid s)
    (_read_uuid s) (_turn_on_cmd s) (_turn_off_cmd s) (_model s).

Definition set_effect_name v (s : BJLEDInstance) : BJLEDInstance :=
  mkInstance (_mac s) (_reset s) (_delay s) (_device s) (_client s)
    (_disconnect_timer s) (_cached_services s) (_expected_disconnect s)
    (_is_on s) (_rgb_color s) (_brightness s) v (_write_uuid s)
    (_read_uuid s) (_turn_on_cmd s) (_turn_off_cmd s) (_model s).

Definition set_write_uuid v (s : BJLEDInstance) : BJLEDInstance :=
  mkInstance (_mac s) (_reset s) (_delay s) (_device s) (_client s)
    (_disconnect_timer s) (_cached_services s) (_expected_disconnect s)
    (_is_on s) (_rgb_color s) (_brightness s) (_effect s) v
    (_read_uuid s) (_turn_on_cmd s) (_turn_off_cmd s) (_model s).

Definition set_cmds on off (s : BJLEDInstance) : BJLEDInstance :=
  mkInstance (_mac s) (_reset s) (_delay s) (_device s) (_client s)
    (_disconnect_timer s) (_cached_services s) (_expected_disconnect s)
    (_is_on s) (_rgb_color s) (_brightness s) (_effect s) (_write_uuid s)
    (_read_uuid s) on off (_model s).

Definition set_model v (s : BJLEDInstance) : BJLEDInstance :=
  mkInstance (_mac s) (_reset s) (_delay s) (_device s) (_client s)
    (_disconnect_timer s) (_cached_services s) (_expected_disconnect s)
    (_is_on s) (_rgb_color s) (_brightness s) (_effect s) (_write_uuid s)
    (_read_uuid s) (_turn_on_cmd s) (_turn_off_cmd s) v.

(** Changes of the surroundings. *)
Definition emit (e : Event) (w : World) : World :=
  upd_env (fun v => mkEnv (connected v) (timers v) (tasks v) (next_id v)
                      (oracle v) (tick v) (e :: trace v)) w.

Definition set_connected (l : list nat) (w : World) : World :=
  upd_env (fun v => mkEnv l (timers v) (tasks v) (next_id v)
                      (oracle v) (tick v) (trace v)) w.

Definition set_timers (l : list nat) (w : World) : World :=
  upd_env (fun v => mkEnv (connected v) l (tasks v) (next_id v)
                      (oracle v) (tick v) (trace v)) w.

Definition set_tasks (n : nat) (w : World) : World :=
  upd_env (fun v => mkEnv (connected v) (timers v) n (next_id v)
                      (oracle v) (tick v) (trace v)) w.

Definition bump_id (w : World) : World :=
  upd_env (fun v => mkEnv (connected v) (timers v) (tasks v) (S (next_id v))
                      (oracle v) (tick v) (trace v)) w.

Definition bump_tick (w : World) : World :=
  upd_env (fun v => mkEnv (connected v) (timers v) (tasks v) (next_id v)
                      (oracle v) (S (tick v)) (trace v)) w.

(** The events in the order they happened. *)
Definition events (w : World) : list Event := rev (trace (env w)).

(** *** The monad of coroutines *)
Definition M (A : Type) : Type := World -> Result A * World.

Definition ret {A} (a : A) : M A := fun w => (Ok a, w).
Definition raise {A} (e : PyExc) : M A := fun w => (Raise e, w).
Definition bind {A B} (c : M A) (k : A -> M B) : M B :=
  fun w => match c w with
           | (Ok a, w') => k a w'
           | (Raise e, w') => (Raise e, w')
           end.
Definition lift {A} (r : Result A) : M A := fun w => (r, w).
Definition gets {A} (f : World -> A) : M A := fun w => (Ok (f w), w).
Definition modify (f : World -> World) : M unit := fun w => (Ok tt, f w).
Definition get_self : M BJLEDInstance := gets self.
Definition assign (f : BJLEDInstance -> BJLEDInstance) : M unit :=
  modify (upd_self f).
Definition log (level : LogLevel) (fmt : string) : M unit :=
  modify (emit (EvLog level fmt)).
Definition when (b : bool) (c : M unit) : M unit := if b then c else ret tt.

Declare Scope py_scope.
Delimit Scope py_scope with py.
Notation "x <- c ;; k" := (bind c (fun x => k))
  (at level 61, c at next level, right associativity) : py_scope.
Notation "c ;; k" := (bind c (fun _ => k))
  (at level 61, right associativity) : py_scope.
Local Open Scope py_scope.

Definition remove_nat (x : nat) (l : list nat) : list nat :=
  filter (fun y => negb (Nat.eqb x y)) l.

Definition mem_nat (x : nat) (l : list nat) : bool := existsb (Nat.eqb x) l.

(** [asyncio.sleep]. *)
Definition sleep (seconds : Q) : M unit := modify (emit (EvSleep seconds)).

(** A fresh handle (for a timer or a client). *)
Definition fresh : M nat :=
  h <- gets (fun w => next_id (env w)) ;;
  modify bump_id ;;
  ret h.

(** [loop.call_later(delay, self._disconnect)]: a fresh handle, pending. *)
Definition call_later (delay : Z) : M nat :=
  h <- fresh ;;
  modify (fun w => set_timers (h :: timers (env w)) w) ;;
  modify (emit (EvCallLater delay h)) ;;
  ret h.

(** [TimerHandle.cancel]: the handle is no longer pending. *)
Definition cancel (h : nat) : M unit :=
  modify (fun w => set_timers (remove_nat h (timers (env w))) w) ;;
  modify (emit (EvCancel h)).

(** [asyncio.create_task(self._execute_timed_disconnect())]. *)
Definition create_task : M unit :=
  modify (fun w => set_tasks (S (tasks (env w))) w) ;;
  modify (emit EvCreateTask).

(** [client.is_connected]. *)
Definition is_connected (c : BleakClientWithServiceCache) (w : World) : bool :=
  mem_nat (client_id c) (connected (env w)).

(** [_disconnected], the callback the transport calls when a link ends. *)
Definition _disconnected (client : BleakClientWithServiceCache) : M unit :=
  s <- get_self ;;
  if _expected_disconnect s
  then log DEBUG "%s: Disconnected from device"
  else log WARNING "%s: Device unexpectedly disconnected".

(** One call to the transport: the event is recorded and the next answer
    of the oracle is taken. *)
Definition transport_call (e : Event) : M Reply :=
  r <- gets (fun w => oracle (env w) (tick (env w))) ;;
  modify (emit e) ;;
  modify bump_tick ;;
  ret r.

(** [establish_connection] of [bleak_retry_connector]: on success a new
    connected client carrying the services the device offers. *)
Definition establish_connection
    (cached : option BleakGATTServiceCollection)
    : M BleakClientWithServiceCache :=
  r <- transport_call (EvConnect cached) ;;
  match r with
  | ReplyOk svc =>
      h <- fresh ;;
      modify (fun w => set_connected (h :: connected (env w)) w) ;;
      ret (mkClient h svc)
  | ReplyErr e => raise e
  end.

(** [client.write_gatt_char(char, data, False)]. *)
Definition write_gatt_char (client : BleakClientWithServiceCache)
    (char : option BleakGATTCharacteristic) (data : option bytearray)
    : M unit :=
  r <- transport_call (EvWrite (client_id client) char data) ;;
  match r with
  | ReplyOk _ => ret tt
  | ReplyErr e => raise e
  end.

(** [client.disconnect()]: on success the link ends and the transport
    reports it through the disconnected callback. *)
Definition client_disconnect (client : BleakClientWithServiceCache) : M unit :=
  r <- transport_call (EvDisconnect (client_id client)) ;;
  match r with
  | ReplyOk _ =>
      modify (fun w =>
        set_connected (remove_nat (client_id client) (connected (env w))) w) ;;
      _disconnected client
  | ReplyErr e => raise e
  end.

(* ===================================================================== *)
(** ** [retry_bluetooth_connection_error]                                 *)
(* ===================================================================== *)

(** The body of [for attempt in range(attempts)], over the attempts that
    remain.  The [except] clauses are tried in the order of the source.
    Falling off the end of the loop returns [None]. *)
Fixpoint retry_loop {A} (func : M A) (max_attempts : nat) (rng : list nat)
    : M (option A) :=
  match rng with
  | [] => ret None
  | attempt :: rest =>
      fun w =>
        match func w with
        | (Ok v, w1) => (Ok (Some v), w1)
        | (Raise err, w1) =>
            if isinstance err [BleakNotFoundError] then (Raise err, w1)
            else if isinstance err RETRY_BACKOFF_EXCEPTIONS then
              if Nat.leb max_attempts attempt then
                (log DEBUG "%s: %s error calling %s, reach max attempts (%s/%s)" ;;
                 raise err) w1
              else
                (log DEBUG
                   "%s: %s error calling %s, backing off %ss, retrying (%s/%s)..." ;;
                 sleep BLEAK_BACKOFF_TIME ;;
                 retry_loop func max_attempts rest) w1
            else if isinstance err BLEAK_EXCEPTIONS then
              if Nat.leb max_attempts attempt then
                (log DEBUG
                   "%s: %s error calling %s, reach max attempts (%s/%s): %s" ;;
                 raise err) w1
              else
                (log DEBUG "%s: %s error calling %s, retrying  (%s/%s)...: %s" ;;
                 retry_loop func max_attempts rest) w1
            else (Raise err, w1)
        end
  end.

Definition retry_bluetooth_connection_error {A} (func : M A) : M (option A) :=
  let attempts := DEFAULT_ATTEMPTS in
  let max_attempts := (attempts - 1)%nat in
  retry_loop func max_attempts (seq 0 attempts).

(* ===================================================================== *)
(** ** [BJLEDInstance]                                                    *)
(* ===================================================================== *)

(** [_detect_model]: the first entry of [NAME_ARRAY] the device name starts
    with (case-insensitively) selects the on and off packets; no match
    returns [None] and leaves the packets unset. *)
Fixpoint detect_model_loop (names : list string) (x : nat) (s : BJLEDInstance)
    : Result (option nat) * BJLEDInstance :=
  match names with
  | [] => (Ok None, s)
  | name :: rest =>
      if startswith (lower (device_name (_device s))) (lower name) then
        match nth_error TURN_ON_CMD x with
        | None => (Raise (mkExc IndexError "list index out of range"), s)
        | Some on =>
            let s1 := set_cmds (Some on) (_turn_off_cmd s) s in
            match nth_error TURN_OFF_CMD x with
            | None => (Raise (mkExc IndexError "list index out of range"), s1)
            | Some off => (Ok (Some x), set_cmds (Some on) (Some off) s1)
            end
        end
      else detect_model_loop rest (S x) s
  end.

Definition _detect_model (s : BJLEDInstance) : Result (option nat) * BJLEDInstance :=
  detect_model_loop NAME_ARRAY 0 s.

(** [__init__].  [device] is what [async_ble_device_from_address] found for
    [address]. *)
Definition __init__ (device : option BLEDevice) (address : string)
    (reset : bool) (delay : option Z) : Result BJLEDInstance :=
  match device with
  | None =>
      Raise (mkExc ConfigEntryNotReady
        "You need to add bluetooth integration or couldn't find a nearby device")
  | Some d =>
      let s := mkInstance address reset delay d None None None false
                 None None (Some 255) None None None None None None in
      match _detect_model s with
      | (Ok m, s1) => Ok (set_model m s1)
      | (Raise e, _) => Raise e
      end
  end.

(** Properties. *)
Definition mac (s : BJLEDInstance) : string := device_address (_device s).
Definition reset (s : BJLEDInstance) : bool := _reset s.
Definition name (s : BJLEDInstance) : string := device_name (_device s).
Definition rssi (s : BJLEDInstance) : Z := device_rssi (_device s).
Definition is_on (s : BJLEDInstance) : option bool := _is_on s.
Definition brightness (s : BJLEDInstance) : option Z := _brightness s.
Definition rgb_color (s : BJLEDInstance) : option (Z * Z * Z) := _rgb_color s.
Definition effect_list (s : BJLEDInstance) : list string := EFFECT_LIST.
Definition effect (s : BJLEDInstance) : option string := _effect s.

(** [_reset_disconnect_timer]. *)
Definition _reset_disconnect_timer : M unit :=
  s <- get_self ;;
  match _disconnect_timer s with
  | Some h => cancel h
  | None => ret tt
  end ;;
  assign (set_expected_disconnect false) ;;
  match _delay s with
  | Some d =>
      when (negb (d =? 0))
        (log DEBUG "%s: Configured disconnect from device in %s seconds" ;;
         h <- call_later d ;;
         assign (set_disconnect_timer (Some h)))
  | None => ret tt
  end.

(** [_resolve_characteristics]: the loop over the write UUIDs stops at the
    first one the services know. *)
Fixpoint resolve_write (services : BleakGATTServiceCollection)
    (uuids : list string) (s : BJLEDInstance) : BJLEDInstance :=
  match uuids with
  | [] => s
  | characteristic :: rest =>
      match get_characteristic services characteristic with
      | Some char => set_write_uuid (Some char) s
      | None => resolve_write services rest s
      end
  end.

Definition truthy {A} (o : option A) : bool :=
  match o with Some _ => true | None => false end.

Definition _resolve_characteristics (services : BleakGATTServiceCollection)
    : M bool :=
  assign (resolve_write services WRITE_CHARACTERISTIC_UUIDS) ;;
  s <- get_self ;;
  ret (truthy (_read_uuid s) && truthy (_write_uuid s)).

(** [self._client and self._client.is_connected]. *)
Definition client_live (w : World) : bool :=
  match _client (self w) with
  | Some c => is_connected c w
  | None => false
  end.

(** [_ensure_connected]. *)
Definition _ensure_connected : M unit :=
  live <- gets client_live ;;
  if live then _reset_disconnect_timer
  else
    (* async with self._connect_lock *)
    live <- gets client_live ;;
    if live then _reset_disconnect_timer
    else
      log DEBUG "%s: Connecting" ;;
      s <- get_self ;;
      client <- establish_connection (_cached_services s) ;;
      log DEBUG "%s: Connected" ;;
      resolved <- _resolve_characteristics (services client) ;;
      resolved <- (if negb resolved
                   then _resolve_characteristics (services client)
                   else ret resolved) ;;
      assign (set_cached_services
                (if resolved then Some (services client) else None)) ;;
      assign (set_client (Some client)) ;;
      _reset_disconnect_timer.

(** [_write_while_connected] and [_write]. *)
Definition _write_while_connected (data : option bytearray) : M unit :=
  log DEBUG "Writing data to {self.name}: {data}" ;;
  s <- get_self ;;
  match _client s with
  | Some client => write_gatt_char client (_write_uuid s) data
  | None =>
      raise (mkExc AttributeError
               "'NoneType' object has no attribute 'write_gatt_char'")
  end.

Definition _write (data : option bytearray) : M unit :=
  _ensure_connected ;;
  _write_while_connected data.

(** [_execute_disconnect]. *)
Definition _execute_disconnect : M unit :=
  s <- get_self ;;
  let client := _client s in
  assign (set_expected_disconnect true) ;;
  assign (set_client None) ;;
  assign (set_write_uuid None) ;;
  match client with
  | Some c =>
      live <- gets (is_connected c) ;;
      when live (client_disconnect c)
  | None => ret tt
  end ;;
  log DEBUG "%s: Disconnected".

Definition _execute_timed_disconnect : M unit :=
  log DEBUG "%s: Disconnecting after timeout of %s" ;;
  _execute_disconnect.

Definition stop : M unit :=
  log DEBUG "%s: Stop" ;;
  _execute_disconnect.

(** [_disconnect], the timer's callback. *)
Definition _disconnect : M unit :=
  assign (set_disconnect_timer None) ;;
  create_task.

(** [set_rgb_color] before decoration.  [rgb] may be [None] when the caller
    is [set_brightness_local] and no colour was ever set. *)
Definition set_rgb_color_body (rgb : option (Z * Z * Z)) (brightness : option Z)
    : M unit :=
  assign (set_rgb rgb) ;;
  s <- get_self ;;
  brightness <-
    match brightness with
    | None =>
        match _brightness s with
        | None => assign (set_brightness (Some 255)) ;; ret None
        | Some b => ret (Some b)
        end
    | Some b => ret (Some b)
    end ;;
  match brightness with
  | None =>
      raise (mkExc TypeError
               "unsupported operand type(s) for *: 'NoneType' and 'int'")
  | Some b =>
      let brightness_percent := int_truediv (b * 100) 255 in
      match rgb with
      | None => raise (mkExc TypeError "'NoneType' object is not subscriptable")
      | Some (r, g, bl) =>
          let red := int_truediv (r * brightness_percent) 100 in
          let green := int_truediv (g * brightness_percent) 100 in
          let blue := int_truediv (bl * brightness_percent) 100 in
          let rgb_packet := [0x69; 0x96; 0x05; 0x02] in
          rgb_packet <- lift (bytearray_append rgb_packet red) ;;
          rgb_packet <- lift (bytearray_append rgb_packet green) ;;
          rgb_packet <- lift (bytearray_append rgb_packet blue) ;;
          _write (Some rgb_packet)
      end
  end.

Definition set_rgb_color (rgb : option (Z * Z * Z)) (brightness : option Z)
    : M (option unit) :=
  retry_bluetooth_connection_error (set_rgb_color_body rgb brightness).

(** [set_brightness_local]. *)
Definition set_brightness_local (value : Z) : M (option unit) :=
  assign (set_brightness (Some value)) ;;
  s <- get_self ;;
  set_rgb_color (_rgb_color s) (Some value).

(** [turn_on] and [turn_off] (each is defined twice in the class, with the
    same body). *)
Definition turn_on_body : M unit :=
  s <- get_self ;;
  _write (_turn_on_cmd s) ;;
  assign (set_is_on (Some true)).

Definition turn_on : M (option unit) :=
  retry_bluetooth_connection_error turn_on_body.

Definition turn_off_body : M unit :=
  s <- get_self ;;
  _write (_turn_off_cmd s) ;;
  assign (set_is_on (Some false)).

Definition turn_off : M (option unit) :=
  retry_bluetooth_connection_error turn_off_body.

(** [set_effect]. *)
Definition set_effect_body (effect : string) : M unit :=
  if negb (existsb (String.eqb effect) EFFECT_LIST) then
    log ERROR "Effect %s not supported"
  else
    assign (set_effect_name (Some effect)) ;;
    let effect_packet := [0x69; 0x96; 0x03; 0x03] in
    let effect_id := dict_get EFFECT_MAP effect in
    log DEBUG "Effect ID: %s" ;;
    log DEBUG "Effect name: %s" ;;
    effect_packet <-
      match effect_id with
      | Some id => lift (bytearray_append effect_packet id)
      | None =>
          raise (mkExc TypeError
                   "'NoneType' object cannot be interpreted as an integer")
      end ;;
    effect_packet <- lift (bytearray_append effect_packet 0x01) ;;
    _write (Some effect_packet).

Definition set_effect (effect : string) : M (option unit) :=
  retry_bluetooth_connection_error (set_effect_body effect).

(** [update]. *)
Definition update_body : M unit := log DEBUG "%s: Update in bjled called".
Definition update : M (option unit) :=
  retry_bluetooth_connection_error update_body.

(** [normalize_brightness]. *)
Definition normalize_brightness (new_brightness : option Z) : M Z :=
  log DEBUG "Doing Normalizing brightness function" ;;
  log DEBUG "New brightness passed IN is %s" ;;
  s <- get_self ;;
  let new_brightness :=
    match new_brightness, _brightness s with
    | None, None => Some 255
    | None, Some b => if 1 <? b then Some b else None
    | Some n, _ => Some n
    end in
  match new_brightness with
  | None =>
      raise (mkExc TypeError
               "'<' not supported between instances of 'NoneType' and 'int'")
  | Some n =>
      let n := if n <? 2 then 2 else n in
      let n := if 255 <? n then 255 else n in
      log DEBUG "New brightness (0-255) is %s" ;;
      assign (set_brightness (Some n)) ;;
      let new_percentage := int_truediv (n * 100) 255 in
      log DEBUG "Normalized brightness percent is %s" ;;
      ret new_percentage
  end.

(* ===================================================================== *)
(** ** The session as a transition system                                 *)
(* ===================================================================== *)

(** What can happen to a session between two quiescent points: a call of
    one of its methods, or something the event loop or the radio does. *)
Inductive Action : Type :=
| ASetRgbColor (rgb : option (Z * Z * Z)) (brightness : option Z)
| ASetBrightnessLocal (value : Z)
| ATurnOn
| ATurnOff
| ASetEffect (effect : string)
| AUpdate
| ANormalizeBrightness (new_brightness : option Z)
| AEnsureConnected
| AStop
| ATimerFires (handle : nat)
| ATaskRuns
| ALinkDrops.

(** A pending timer fires: the loop drops it and calls [_disconnect]. *)
Definition timer_fires (h : nat) : M unit :=
  pending <- gets (fun w => mem_nat h (timers (env w))) ;;
  when pending
    (modify (fun w => set_timers (remove_nat h (timers (env w))) w) ;;
     _disconnect).

(** A task made by [asyncio.create_task] runs; an exception it raises stays
    in the task. *)
Definition task_runs : M unit :=
  fun w =>
    match tasks (env w) with
    | O => (Ok tt, w)
    | S n =>
        match _execute_timed_disconnect (set_tasks n w) with
        | (Ok _, w1) => (Ok tt, w1)
        | (Raise e, w1) => (Ok tt, emit (EvTaskException e) w1)
        end
    end.

(** The radio link of the current client is lost. *)
Definition link_drops : M unit :=
  s <- get_self ;;
  match _client s with
  | Some c =>
      live <- gets (is_connected c) ;;
      when live
        (modify (fun w =>
           set_connected (remove_nat (client_id c) (connected (env w))) w) ;;
         _disconnected c)
  | None => ret tt
  end.

Definition void {A} (c : M A) : M unit :=
  fun w => match c w with (Ok _, w1) => (Ok tt, w1) | (Raise e, w1) => (Raise e, w1) end.

Definition perform (a : Action) : M unit :=
  match a with
  | ASetRgbColor rgb b => void (set_rgb_color rgb b)
  | ASetBrightnessLocal v => void (set_brightness_local v)
  | ATurnOn => void turn_on
  | ATurnOff => void turn_off
  | ASetEffect e => void (set_effect e)
  | AUpdate => void update
  | ANormalizeBrightness b => void (normalize_brightness b)
  | AEnsureConnected => _ensure_connected
  | AStop => stop
  | ATimerFires h => timer_fires h
  | ATaskRuns => task_runs
  | ALinkDrops => link_drops
  end.

(** The world after an action, whether it returned or raised. *)
Definition step (a : Action) (w : World) : World := snd (perform a w).

Definition run (l : list Action) (w : World) : World :=
  fold_left (fun w a => step a w) l w.

(** A fresh session: the instance [__init__] built, nothing connected, no
    timer, an empty trace. *)
Definition boot (s : BJLEDInstance) (transport : nat -> Reply) : World :=
  mkWorld s (mkEnv [] [] 0 0 transport 0 []).

Inductive reachable : World -> Prop :=
| reach_boot device address reset delay s transport :
    __init__ (Some device) address reset delay = Ok s ->
    reachable (boot s transport)
| reach_step a w : reachable w -> reachable (step a w).

(* ===================================================================== *)
(** ** Notions used in the statements                                     *)
(* ===================================================================== *)

(** The payloads of the characteristic writes among some events. *)
Definition writes_of (evs : list Event) : list (option bytearray) :=
  flat_map (fun e => match e with EvWrite _ _ d => [d] | _ => [] end) evs.

(** The calls made to the transport among some events. *)
Definition is_transport_call (e : Event) : bool :=
  match e with
  | EvConnect _ | EvWrite _ _ _ | EvDisconnect _ => true
  | _ => false
  end.

(** [w'] is [w] after the events [evs] (newest first) and nothing removed. *)
Definition extends (w w' : World) (evs : list Event) : Prop :=
  trace (env w') = evs ++ trace (env w).

(** The channel value the specification asks for, with floor divisions. *)
Definition scaled_channel (channel b : Z) : Z :=
  channel * (b * 100 / 255) / 100.

(** A test on the [n] integers from [z] upwards. *)
Fixpoint all_from (z : Z) (n : nat) (p : Z -> bool) : bool :=
  match n with
  | O => true
  | S k => p z && all_from (z + 1) k p
  end.

(** The lighting state cached by the session. *)
Definition lighting (s : BJLEDInstance)
    : option bool * option (Z * Z * Z) * option Z * option string :=
  (_is_on s, _rgb_color s, _brightness s, _effect s).

(** The retry policy in words: the result of the decorated call when the
    attempt numbered [k] starts in [w], and the number of invocations of the
    wrapped function that lead to it.  Attempts are numbered from [0]; the
    third one, numbered [2], is the last. *)
Definition other_retryable (c : ExcClass) : Prop :=
  c = AttributeError \/ c = BleakError \/ c = EOFError \/
  c = BrokenPipeError \/ c = TimeoutError.

Definition never_handled (c : ExcClass) : Prop :=
  c = ConfigEntryNotReady \/ c = TypeError \/ c = ValueError \/ c = IndexError.

Inductive retry_outcome {A} (func : M A)
    : nat -> World -> nat -> Result (option A) -> World -> Prop :=
| outcome_returned k w v w1 :
    func w = (Ok v, w1) ->
    retry_outcome func k w 1 (Ok (Some v)) w1
| outcome_not_found k w e w1 :
    func w = (Raise e, w1) ->
    exc_type e = BleakNotFoundError ->
    retry_outcome func k w 1 (Raise e) w1
| outcome_not_handled k w e w1 :
    func w = (Raise e, w1) ->
    never_handled (exc_type e) ->
    retry_outcome func k w 1 (Raise e) w1
| outcome_backoff k w e w1 fmt delay n r w2 :
    (k < 2)%nat ->
    func w = (Raise e, w1) ->
    exc_type e = BleakDBusError ->
    (delay == 1 # 4)%Q ->
    retry_outcome func (S k)
      (emit (EvSleep delay) (emit (EvLog DEBUG fmt) w1)) n r w2 ->
    retry_outcome func k w (S n) r w2
| outcome_retry k w e w1 fmt n r w2 :
    (k < 2)%nat ->
    func w = (Raise e, w1) ->
    other_retryable (exc_type e) ->
    retry_outcome func (S k) (emit (EvLog DEBUG fmt) w1) n r w2 ->
    retry_outcome func k w (S n) r w2
| outcome_exhausted k w e w1 fmt :
    k = 2%nat ->
    func w = (Raise e, w1) ->
    exc_type e = BleakDBusError \/ other_retryable (exc_type e) ->
    retry_outcome func k w 1 (Raise e) (emit (EvLog DEBUG fmt) w1).

(** [keeps R c]: whatever [c] does, and whether it returns or raises, the
    world it leaves is related by [R] to the one it started in. *)
Definition keeps (R : World -> World -> Prop) {A} (c : M A) : Prop :=
  forall w, R w (snd (c w)).

(** Relations used with [keeps]: an attribute (or any reading [f] of the
    instance) is left as it was; only events satisfying [P] are added to the
    trace; a property [I] of worlds is maintained. *)
Definition same_on {X} (f : BJLEDInstance -> X) (w w' : World) : Prop :=
  f (self w') = f (self w).

Definition only_adds (P : Event -> Prop) (w w' : World) : Prop :=
  exists evs, extends w w' evs /\ Forall P evs.

(** An event that, if it is a characteristic write, carries [data]. *)
Definition writes_only (data : option bytearray) (e : Event) : Prop :=
  match e with
  | EvWrite _ _ d => d = data
  | _ => True
  end.

(** The events the retry loop itself produces: log lines and sleeps. *)
Definition is_quiet (e : Event) : bool :=
  match e with
  | EvLog _ _ | EvSleep _ => true
  | _ => false
  end.

(** An event that is no call to the transport. *)
Definition no_transport (e : Event) : Prop := is_transport_call e = false.

Definition maintains (I : World -> Prop) (w w' : World) : Prop := I w -> I w'.

(** The world in which [_ensure_connected] restarts the idle timer after it
    connected to a device offering the services [svc]: the two rounds of
    [_resolve_characteristics], the cache and the client assigned. *)
Definition connected_world (svc : BleakGATTServiceCollection) (w : World)
    : World :=
  let c := mkClient (next_id (env w)) svc in
  let s1 := resolve_write svc WRITE_CHARACTERISTIC_UUIDS (self w) in
  let resolved := truthy (_read_uuid (self w)) && truthy (_write_uuid s1) in
  let s2 :=
    if resolved then s1 else resolve_write svc WRITE_CHARACTERISTIC_UUIDS s1 in
  let resolved :=
    if resolved then true
    else truthy (_read_uuid (self w)) && truthy (_write_uuid s2) in
  mkWorld
    (set_client (Some c)
       (set_cached_services (if resolved then Some svc else None) s2))
    (env (emit (EvLog DEBUG "%s: Connected")
            (set_connected (client_id c :: connected (env w))
               (bump_id
                  (bump_tick
                     (emit (EvConnect (_cached_services (self w)))
                        (emit (EvLog DEBUG "%s: Connecting") w))))))).

(** The attributes that describe the connection. *)
Definition connection (s : BJLEDInstance)
    : option BleakClientWithServiceCache * option BleakGATTCharacteristic *
      option BleakGATTCharacteristic * option BleakGATTServiceCollection :=
  (_client s, _write_uuid s, _read_uuid s, _cached_services s).

(** A write characteristic is held only together with a client. *)
Definition uuid_needs_client (w : World) : Prop :=
  _write_uuid (self w) <> None -> _client (self w) <> None.

(** At most one timer is pending, and it is the one the instance holds. *)
Definition timer_ok (w : World) : Prop :=
  timers (env w) = [] \/
  exists h, timers (env w) = [h] /\ _disconnect_timer (self w) = Some h.

(** Sample devices and transports for the concrete runs below. *)
Definition sample_device : BLEDevice := mkDevice "BJ_LED_01" "AA:BB:CC:DD:EE:FF" (-60).

Definition sample_instance (delay : option Z) : BJLEDInstance :=
  mkInstance "AA:BB:CC:DD:EE:FF" false delay sample_device None None None false
    None None (Some 255) None None None
    (Some [0x69; 0x96; 0x02; 0x01; 0x01]) (Some [0x69; 0x96; 0x02; 0x01; 0x00])
    (Some 0%nat).

(** A transport that accepts everything and offers the write characteristic. *)
Definition transport_ok : nat -> Reply :=
  fun _ => ReplyOk ["0000ee01-0000-1000-8000-00805f9b34fb"].

(** A transport that connects to a device without the write characteristic. *)
Definition transport_no_char : nat -> Reply := fun _ => ReplyOk [].

(** A transport that connects and then fails every later call. *)
Definition transport_fail_after (n : nat) (e : PyExc) : nat -> Reply :=
  fun t => if Nat.ltb t n then ReplyOk ["0000ee01-0000-1000-8000-00805f9b34fb"]
           else ReplyErr e.

(** The brightness [normalize_brightness] settles on for an input. *)
Definition clamp_brightness (n : Z) : Z := Z.max 2 (Z.min 255 n).

(** A reading of the whole world is left as it was. *)
Definition same_reading {X} (f : World -> X) (w w' : World) : Prop :=
  f w' = f w.



(** An event that is no warning. *)
Definition not_warning (e : Event) : Prop :=
  match e with
  | EvLog WARNING _ => False
  | _ => True
  end.

(** A transport on which every call fails with [e]. *)
Definition transport_down (e : PyExc) : nat -> Reply := fun _ => ReplyErr e.

(** The world after a connection attempt that failed. *)
Definition connect_failed_world (w : World) : World :=
  bump_tick (emit (EvConnect (_cached_services (self w)))
               (emit (EvLog DEBUG "%s: Connecting") w)).

(** [R] holds between worlds that satisfy [I], which is maintained. *)
Definition guarded (I : World -> Prop) (R : World -> World -> Prop)
    (w w' : World) : Prop :=
  I w -> I w' /\ R w w'.

(** The service cache is empty, and every connection was asked for without
    cached services. *)
Definition connects_uncached (e : Event) : Prop :=
  match e with
  | EvConnect c => c = None
  | _ => True
  end.

Definition never_cached (w : World) : Prop :=
  _read_uuid (self w) = None /\
  _cached_services (self w) = None /\
  Forall connects_uncached (trace (env w)).

Definition has_brightness (w : World) : Prop :=
  exists b, _brightness (self w) = Some b.

(** Between two worlds the timer invariant is maintained, the configured
    delay is the same and no handle was given back. *)
Definition timer_progress (w w' : World) : Prop :=
  (timer_ok w -> timer_ok w') /\
  _delay (self w') = _delay (self w) /\
  (next_id (env w) <= next_id (env w'))%nat.


(* ===================================================================== *)
(** * Properties                                                          *)
(* ===================================================================== *)

(** ** Arithmetic of the brightness scaling *)

Lemma all_from_spec (n : nat) (p : Z -> bool) :
  forall z, all_from z n p = true ->
  forall x, z <= x < z + Z.of_nat n -> p x = true.
Proof.
  induction n as [|k IH]; intros z H x Hx.
  - simpl in Hx. lia.
  - simpl in H. apply andb_prop in H. destruct H as [Hz Hr].
    destruct (Z.eq_dec x z) as [->|Hne]; [exact Hz|].
    apply (IH (z + 1) Hr). lia.
Qed.

(** The float quotient truncates to the integer quotient on every numerator
    the scaling can produce. *)
Lemma int_truediv_100 (n : Z) :
  0 <= n <= 25500 -> int_truediv n 100 = n / 100.
Proof.
  intros Hn.
  assert (H : all_from 0 (Z.to_nat 25501)
                (fun z => int_truediv z 100 =? z / 100) = true)
    by (vm_compute; reflexivity).
  apply Z.eqb_eq. apply (all_from_spec _ _ _ H).
  rewrite Z2Nat.id by lia. lia.
Qed.

Lemma int_truediv_percent (b : Z) :
  0 <= b <= 255 -> int_truediv (b * 100) 255 = b * 100 / 255.
Proof.
  intros Hb.
  assert (H : all_from 0 (Z.to_nat 256)
                (fun z => int_truediv (z * 100) 255 =? z * 100 / 255) = true)
    by (vm_compute; reflexivity).
  apply Z.eqb_eq.
  apply (all_from_spec _ (fun z => int_truediv (z * 100) 255 =? z * 100 / 255) _ H).
  rewrite Z2Nat.id by lia. lia.
Qed.

Lemma percent_range (b : Z) : 0 <= b <= 255 -> 0 <= b * 100 / 255 <= 100.
Proof.
  intros Hb. split.
  - apply Z.div_pos; lia.
  - apply Z.div_le_upper_bound; lia.
Qed.

Lemma scaled_channel_range (c b : Z) :
  0 <= c <= 255 -> 0 <= b <= 255 -> 0 <= scaled_channel c b <= c.
Proof.
  intros Hc Hb. unfold scaled_channel.
  pose proof (percent_range b Hb) as Hp.
  split.
  - apply Z.div_pos; nia.
  - apply Z.div_le_upper_bound; nia.
Qed.

(** ** Frames and invariants of monadic code *)

Section Keeps.
Context (R : World -> World -> Prop) {HR : PreOrder R}.

Lemma keeps_ret {A} (a : A) : keeps R (ret a).
Proof. intros w. simpl. reflexivity. Qed.

Lemma keeps_raise {A} (e : PyExc) : keeps R (@raise A e).
Proof. intros w. simpl. reflexivity. Qed.

Lemma keeps_lift {A} (r : Result A) : keeps R (lift r).
Proof. intros w. simpl. reflexivity. Qed.

Lemma keeps_gets {A} (f : World -> A) : keeps R (gets f).
Proof. intros w. simpl. reflexivity. Qed.

Lemma keeps_modify (f : World -> World) :
  (forall w, R w (f w)) -> keeps R (modify f).
Proof. intros H w. simpl. apply H. Qed.

Lemma keeps_bind {A B} (c : M A) (k : A -> M B) :
  keeps R c -> (forall a, keeps R (k a)) -> keeps R (bind c k).
Proof.
  intros Hc Hk w. unfold bind.
  specialize (Hc w). destruct (c w) as [[a|e] w1]; simpl in *.
  - etransitivity; [exact Hc|apply Hk].
  - exact Hc.
Qed.

Lemma keeps_when (b : bool) (c : M unit) : keeps R c -> keeps R (when b c).
Proof. intros Hc. destruct b; simpl; [exact Hc|apply keeps_ret]. Qed.

Lemma keeps_void {A} (c : M A) : keeps R c -> keeps R (void c).
Proof.
  intros Hc w. unfold void. specialize (Hc w).
  destruct (c w) as [[a|e] w1]; exact Hc.
Qed.

Lemma keeps_task_runs :
  keeps R _execute_timed_disconnect ->
  (forall n w, R w (set_tasks n w)) ->
  (forall e w, R w (emit (EvTaskException e) w)) ->
  keeps R task_runs.
Proof.
  intros Hd Ht He w. unfold task_runs.
  destruct (tasks (env w)) as [|n]; [reflexivity|].
  specialize (Hd (set_tasks n w)).
  destruct (_execute_timed_disconnect (set_tasks n w)) as [[u|e] w1];
    cbn [snd] in *.
  - etransitivity; [apply Ht|exact Hd].
  - etransitivity; [apply Ht|]. etransitivity; [exact Hd|apply He].
Qed.

Lemma keeps_retry_loop {A} (func : M A) (m : nat) (rng : list nat) :
  keeps R func -> (forall e w, is_quiet e = true -> R w (emit e w)) ->
  keeps R (retry_loop func m rng).
Proof.
  intros Hf He. induction rng as [|attempt rest IH]; intros w.
  - cbn. reflexivity.
  - cbn [retry_loop]. specialize (Hf w).
    destruct (func w) as [[v|err] w1]; cbn [snd] in Hf.
    + exact Hf.
    + assert (Hlog : forall fmt, R w (emit (EvLog DEBUG fmt) w1))
        by (intros fmt; etransitivity; [exact Hf|apply He; reflexivity]).
      destruct (isinstance err [BleakNotFoundError]); [exact Hf|].
      destruct (isinstance err RETRY_BACKOFF_EXCEPTIONS).
      * destruct (Nat.leb m attempt); unfold bind, log, sleep, modify, raise;
          cbn [snd].
        -- apply Hlog.
        -- etransitivity; [|apply IH].
           etransitivity; [apply Hlog|apply He; reflexivity].
      * destruct (isinstance err BLEAK_EXCEPTIONS); [|exact Hf].
        destruct (Nat.leb m attempt); unfold bind, log, modify, raise;
          cbn [snd].
        -- apply Hlog.
        -- etransitivity; [apply Hlog|apply IH].
Qed.

Lemma keeps_retry {A} (func : M A) :
  keeps R func -> (forall e w, is_quiet e = true -> R w (emit e w)) ->
  keeps R (retry_bluetooth_connection_error func).
Proof. intros Hf He. apply keeps_retry_loop; assumption. Qed.
End Keeps.

#[local] Instance same_on_preorder {X} (f : BJLEDInstance -> X)
  : PreOrder (same_on f).
Proof.
  split.
  - intros w. reflexivity.
  - intros w1 w2 w3 H12 H23. unfold same_on in *. congruence.
Qed.

#[local] Instance only_adds_preorder (P : Event -> Prop) : PreOrder (only_adds P).
Proof.
  split.
  - intros w. exists []. split; [reflexivity|constructor].
  - intros w1 w2 w3 (e12 & H12 & P12) (e23 & H23 & P23).
    exists (e23 ++ e12). split.
    + unfold extends in *. rewrite H23, H12. apply app_assoc.
    + apply Forall_app. split; assumption.
Qed.

#[local] Instance maintains_preorder (I : World -> Prop) : PreOrder (maintains I).
Proof.
  split.
  - intros w H. exact H.
  - intros w1 w2 w3 H12 H23 H. apply H23, H12, H.
Qed.

(** Symbolic execution of straight-line code under [keeps]: [base] closes
    the goals [R w (f w)] left by the assignments and the events. *)
Ltac preorder :=
  match goal with |- PreOrder _ => typeclasses eauto | _ => idtac end.

Ltac head_of c :=
  match c with
  | ?f _ => head_of f
  | _ => c
  end.

(** A lemma in the context is used for the method it speaks of; a method
    without one is unfolded. *)
Ltac keeps_with base :=
  repeat
    match goal with
    | H : keeps ?R ?c |- keeps ?R ?c => exact H
    | H : forall x, keeps ?R (?c x) |- keeps ?R (?c _) => apply H
    | |- keeps _ (ret _) => apply keeps_ret; preorder
    | |- keeps _ (raise _) => apply keeps_raise; preorder
    | |- keeps _ (lift _) => apply keeps_lift; preorder
    | |- keeps _ (gets _) => apply keeps_gets; preorder
    | |- keeps _ (when _ _) => apply keeps_when; preorder
    | |- keeps _ (void _) => apply keeps_void; preorder
    | |- keeps _ (bind _ _) => apply keeps_bind; preorder; [ | intros ? ]
    | |- keeps _ (modify _) => apply keeps_modify; preorder; intros ?; base
    | |- keeps _ (retry_bluetooth_connection_error _) =>
        apply keeps_retry; preorder; [ | intros ? ? ?; base ]
    | |- keeps _ task_runs =>
        apply keeps_task_runs; preorder;
        [ | intros ? ?; base | intros ? ?; base ]
    | |- keeps _ (match ?x with _ => _ end) => destruct x
    | |- keeps _ ?c => let h := head_of c in progress unfold h
    end.

Ltac split_cases :=
  repeat match goal with
         | |- context [match ?x with _ => _ end] => destruct x eqn:?
         end.

(** Base cases: an assignment or an event leaves the reading alone. *)
Ltac same_on_base := unfold same_on; cbn; split_cases; reflexivity.

(** Base cases for [only_adds P]: an event satisfying [P], or no event. *)
Ltac only_adds_base :=
  first
    [ eexists (cons _ nil); split;
      [ reflexivity | constructor; [ cbn; auto | constructor ] ]
    | exists nil; split; [ reflexivity | constructor ] ].

(** *** What the retry loop does to a relation kept by failed attempts *)

Lemma retry_loop_result (R : World -> World -> Prop) {HR : PreOrder R}
    {A} (func : M A) (m : nat) (rng : list nat) :
  (forall w e w1, func w = (Raise e, w1) -> R w w1) ->
  (forall e w, is_quiet e = true -> R w (emit e w)) ->
  forall w,
    match retry_loop func m rng w with
    | (Ok (Some v), w') => exists wk, R w wk /\ func wk = (Ok v, w')
    | (Ok None, w') => R w w'
    | (Raise e, w') => R w w'
    end.
Proof.
  intros Hf He. induction rng as [|attempt rest IH]; intros w.
  - cbn. reflexivity.
  - cbn [retry_loop]. destruct (func w) as [[v|err] w1] eqn:Hrun.
    + exists w. split; [reflexivity|exact Hrun].
    + pose proof (Hf _ _ _ Hrun) as Hw1.
      assert (Hlog : forall fmt, R w (emit (EvLog DEBUG fmt) w1))
        by (intros fmt; etransitivity; [exact Hw1|apply He; reflexivity]).
      assert (Hnext : forall w2, R w w2 ->
                match retry_loop func m rest w2 with
                | (Ok (Some v), w') => exists wk, R w wk /\ func wk = (Ok v, w')
                | (Ok None, w') => R w w'
                | (Raise e, w') => R w w'
                end).
      { intros w2 Hw2. specialize (IH w2).
        destruct (retry_loop func m rest w2) as [[[v|]|e] w'].
        - destruct IH as (wk & Hk & Hrunk). exists wk. split; [|exact Hrunk].
          etransitivity; eassumption.
        - etransitivity; eassumption.
        - etransitivity; eassumption. }
      destruct (isinstance err [BleakNotFoundError]); [exact Hw1|].
      destruct (isinstance err RETRY_BACKOFF_EXCEPTIONS).
      * destruct (Nat.leb m attempt); unfold bind, log, sleep, modify, raise;
          cbn [fst snd].
        -- apply Hlog.
        -- apply Hnext. etransitivity; [apply Hlog|apply He; reflexivity].
      * destruct (isinstance err BLEAK_EXCEPTIONS); [|exact Hw1].
        destruct (Nat.leb m attempt); unfold bind, log, modify, raise;
          cbn [fst snd].
        -- apply Hlog.
        -- apply Hnext. apply Hlog.
Qed.

(** With three attempts the loop never falls off its end. *)
Lemma retry_never_none {A} (func : M A) (w : World) :
  fst (retry_bluetooth_connection_error func w) <> Ok None.
Proof.
  unfold retry_bluetooth_connection_error. cbn [DEFAULT_ATTEMPTS seq Nat.sub].
  cbn [retry_loop].
  repeat
    (match goal with
     | |- context [func ?x] => destruct (func x) as [[?|?] ?]
     | |- context [if ?b then _ else _] => destruct b
     end;
     unfold bind, log, sleep, modify, raise, ret; cbn [retry_loop fst snd Nat.leb];
     try discriminate).
Qed.

(** What every attempt establishes holds after the decorated call. *)
Lemma retry_establishes {A} (Q : World -> Prop) (func : M A) :
  (forall w, Q (snd (func w))) ->
  (forall e w, is_quiet e = true -> Q w -> Q (emit e w)) ->
  forall w, Q (snd (retry_bluetooth_connection_error func w)).
Proof.
  intros Hf He w.
  unfold retry_bluetooth_connection_error.
  pose proof (Hf w) as Hfirst.
  cbn [DEFAULT_ATTEMPTS seq Nat.sub]. cbn [retry_loop].
  destruct (func w) as [[v|err] w1] eqn:Hrun; cbn [snd] in *; [exact Hfirst|].
  assert (Hgo : forall w2, Q w2 ->
            Q (snd (retry_loop func 2 [1; 2]%nat w2))).
  { intros w2 Hw2.
    pose proof (@retry_loop_result (maintains Q) _ A func 2 [1; 2]%nat) as Hres.
    assert (Hfail : forall w0 e w1', func w0 = (Raise e, w1') -> maintains Q w0 w1').
    { intros w0 e w1' Hrun' _. specialize (Hf w0). rewrite Hrun' in Hf. exact Hf. }
    specialize (Hres Hfail (fun e w0 Hq => He e w0 Hq) w2).
    destruct (retry_loop func 2 [1; 2]%nat w2) as [[[v|]|e] w']; cbn [snd].
    - destruct Hres as (wk & _ & Hrunk). specialize (Hf wk).
      rewrite Hrunk in Hf. exact Hf.
    - apply Hres, Hw2.
    - apply Hres, Hw2. }
  destruct (isinstance err [BleakNotFoundError]); [exact Hfirst|].
  destruct (isinstance err RETRY_BACKOFF_EXCEPTIONS).
  - unfold bind, log, sleep, modify, raise; cbn [fst snd Nat.leb].
    apply Hgo. apply He; [reflexivity|]. apply He; [reflexivity|]. exact Hfirst.
  - destruct (isinstance err BLEAK_EXCEPTIONS); [|exact Hfirst].
    unfold bind, log, modify, raise; cbn [fst snd Nat.leb].
    apply Hgo. apply He; [reflexivity|]. exact Hfirst.
Qed.

(** *** The lighting state is touched only by the command that sets it *)

Lemma write_same_lighting (data : option bytearray) :
  keeps (same_on lighting) (_write data).
Proof. keeps_with same_on_base. Qed.

Lemma assign_then_keeps {X A} (f : BJLEDInstance -> X)
    (g : BJLEDInstance -> BJLEDInstance) (k : unit -> M A) (w : World) :
  keeps (same_on f) (k tt) ->
  f (self (snd (bind (assign g) k w))) = f (g (self w)).
Proof. intros Hk. exact (Hk (upd_self g w)). Qed.

Lemma In_EFFECT_LIST (effect : string) :
  In effect EFFECT_LIST -> existsb (String.eqb effect) EFFECT_LIST = true.
Proof.
  intros H. apply existsb_exists. exists effect. split; [exact H|].
  apply String.eqb_refl.
Qed.

Lemma set_rgb_color_body_caches (rgb : option (Z * Z * Z)) (b : option Z)
    (w : World) :
  _rgb_color (self (snd (set_rgb_color_body rgb b w))) = rgb.
Proof.
  unfold set_rgb_color_body.
  rewrite (assign_then_keeps _rgb_color); [reflexivity|].
  generalize (write_same_lighting); intros Hw.
  assert (Hwrite : forall d, keeps (same_on _rgb_color) (_write d)).
  { intros d w0. specialize (Hw d w0). unfold same_on, lighting in *.
    congruence. }
  keeps_with same_on_base.
Qed.

Lemma set_effect_body_caches (effect : string) (w : World) :
  In effect EFFECT_LIST ->
  _effect (self (snd (set_effect_body effect w))) = Some effect.
Proof.
  intros Hin. unfold set_effect_body. rewrite (In_EFFECT_LIST _ Hin). cbn [negb].
  rewrite (assign_then_keeps _effect); [reflexivity|].
  assert (Hwrite : forall d, keeps (same_on _effect) (_write d)).
  { intros d w0. pose proof (write_same_lighting d w0) as Hw.
    unfold same_on, lighting in *. congruence. }
  keeps_with same_on_base.
Qed.

(** A power command: the flag is assigned only after [_write] returned. *)
Lemma power_body_cases (cmd : BJLEDInstance -> option bytearray) (v : bool)
    (w : World) :
  let body := (s <- get_self ;; _write (cmd s) ;; assign (set_is_on (Some v)))%py in
  match body w with
  | (Ok _, w') => _is_on (self w') = Some v
  | (Raise _, w') => _is_on (self w') = _is_on (self w)
  end.
Proof.
  cbn. unfold bind, get_self, gets, assign, modify.
  pose proof (write_same_lighting (cmd (self w)) w) as Hw.
  destruct (_write (cmd (self w)) w) as [[[]|e] w1]; cbn in *.
  - reflexivity.
  - unfold same_on, lighting in Hw. congruence.
Qed.

Lemma power_cases (cmd : BJLEDInstance -> option bytearray) (v : bool)
    (w : World) :
  let body := (s <- get_self ;; _write (cmd s) ;; assign (set_is_on (Some v)))%py in
  match retry_bluetooth_connection_error body w with
  | (Ok _, w') => _is_on (self w') = Some v
  | (Raise _, w') => _is_on (self w') = _is_on (self w)
  end.
Proof.
  intros body.
  pose proof (retry_never_none body w) as Hnone.
  pose proof (@retry_loop_result (same_on _is_on) _ unit body 2 [0; 1; 2]%nat)
    as Hres.
  assert (Hfail : forall w0 e w1, body w0 = (Raise e, w1) -> same_on _is_on w0 w1).
  { intros w0 e w1 Hrun. pose proof (power_body_cases cmd v w0) as Hc.
    cbn zeta in Hc. fold body in Hc. rewrite Hrun in Hc. exact Hc. }
  specialize (Hres Hfail (fun e w0 _ => eq_refl) w).
  unfold retry_bluetooth_connection_error in *.
  cbn [DEFAULT_ATTEMPTS seq Nat.sub] in *.
  destruct (retry_loop body 2 [0; 1; 2]%nat w) as [[[u|]|e] w'].
  - destruct Hres as (wk & _ & Hrun).
    pose proof (power_body_cases cmd v wk) as Hc.
    cbn zeta in Hc. fold body in Hc. rewrite Hrun in Hc. exact Hc.
  - exfalso. apply Hnone. reflexivity.
  - exact Hres.
Qed.

(** ** C1: when the cached lighting state is assigned *)

(** C1, as the code has it.  [set_rgb_color] and [set_effect] (for a known
    effect) assign [_rgb_color] and [_effect] before anything is written:
    the new value is cached whatever the outcome, also after the retries
    are exhausted.  [turn_on] and [turn_off] assign [_is_on] only after the
    write returned: a call that raises leaves [_is_on] as it was, a call
    that returns has set it. *)
Theorem cached_state_after_command :
  (forall rgb brightness w,
     _rgb_color (self (snd (set_rgb_color rgb brightness w))) = rgb) /\
  (forall effect w,
     In effect EFFECT_LIST ->
     _effect (self (snd (set_effect effect w))) = Some effect) /\
  (forall w,
     match turn_on w with
     | (Ok _, w') => _is_on (self w') = Some true
     | (Raise _, w') => _is_on (self w') = _is_on (self w)
     end) /\
  (forall w,
     match turn_off w with
     | (Ok _, w') => _is_on (self w') = Some false
     | (Raise _, w') => _is_on (self w') = _is_on (self w)
     end).
Proof.
  split; [|split; [|split]].
  - intros rgb b w. unfold set_rgb_color.
    apply (retry_establishes (fun w0 => _rgb_color (self w0) = rgb)).
    + intros w0. apply set_rgb_color_body_caches.
    + intros e w0 _ H. exact H.
  - intros effect w Hin. unfold set_effect.
    apply (retry_establishes (fun w0 => _effect (self w0) = Some effect)).
    + intros w0. apply set_effect_body_caches, Hin.
    + intros e w0 _ H. exact H.
  - intros w. exact (power_cases _turn_on_cmd true w).
  - intros w. exact (power_cases _turn_off_cmd false w).
Qed.

(** A session whose device accepts the connection and then fails every
    write: [turn_on] gives up after three writes and [_is_on] is still
    unknown, while [set_rgb_color] in the same situation has cached the
    colour. *)
Lemma turn_on_failure_leaves_is_on :
  let e := mkExc BleakError "write failed" in
  let w := boot (sample_instance None) (transport_fail_after 1 e) in
  fst (turn_on w) = Raise e /\
  _is_on (self (snd (turn_on w))) = None /\
  _is_on (self (snd (turn_on w))) <> Some true /\
  writes_of (events (snd (turn_on w))) =
    [_turn_on_cmd (self w); _turn_on_cmd (self w); _turn_on_cmd (self w)].
Proof. vm_compute. repeat split; discriminate. Qed.

Lemma cached_state_after_command_witness :
  _effect (self (snd (set_effect "red_fade"
      (boot (sample_instance None)
         (transport_fail_after 1 (mkExc BleakError "write failed"))))))
  = Some "red_fade".
Proof.
  apply (proj1 (proj2 cached_state_after_command)).
  vm_compute. tauto.
Defined.

(** ** C10: [set_rgb_color] without any brightness *)

Lemma set_rgb_color_without_brightness_eq
    (rgb : option (Z * Z * Z)) (w : World) :
  _brightness (self w) = None ->
  set_rgb_color rgb None w =
    (Raise (mkExc TypeError
              "unsupported operand type(s) for *: 'NoneType' and 'int'"),
     upd_self (set_brightness (Some 255)) (upd_self (set_rgb rgb) w)).
Proof.
  intros H.
  unfold set_rgb_color, retry_bluetooth_connection_error, set_rgb_color_body.
  cbn [DEFAULT_ATTEMPTS seq Nat.sub retry_loop].
  unfold bind, assign, modify, get_self, gets, ret, raise. cbn.
  rewrite H. reflexivity.
Qed.

(** C10.  When [set_rgb_color] is called with brightness [None] while the
    stored brightness is [None] too, the stored brightness becomes 255 but
    the local one stays [None]: the percentage computation raises
    [TypeError], which no [except] clause of the decorator handles.  The
    call raises at its first attempt; the only changes are the two
    assignments, so nothing was logged, connected or written. *)
Theorem set_rgb_color_without_brightness
    (rgb : option (Z * Z * Z)) (w : World) :
  _brightness (self w) = None ->
  set_rgb_color rgb None w =
    (Raise (mkExc TypeError
              "unsupported operand type(s) for *: 'NoneType' and 'int'"),
     upd_self (set_brightness (Some 255)) (upd_self (set_rgb rgb) w)).
Proof.
  intros H.
  unfold set_rgb_color, retry_bluetooth_connection_error, set_rgb_color_body.
  cbn [DEFAULT_ATTEMPTS seq Nat.sub retry_loop].
  unfold bind, assign, modify, get_self, gets, ret, raise. cbn.
  rewrite H. reflexivity.
Qed.

Lemma set_rgb_color_without_brightness_witness :
  let w := boot (set_brightness None (sample_instance (Some 5))) transport_ok in
  set_rgb_color (Some (255, 0, 0)) None w =
    (Raise (mkExc TypeError
              "unsupported operand type(s) for *: 'NoneType' and 'int'"),
     upd_self (set_brightness (Some 255))
       (upd_self (set_rgb (Some (255, 0, 0))) w)).
Proof.
  intros w. apply set_rgb_color_without_brightness. reflexivity.
Defined.

(** ** C4: [normalize_brightness] *)

(** C4, as the code has it.  The brightness that [normalize_brightness]
    stores is 255 for [None] with no brightness stored before, 2 for an
    input below 2, 255 for an input above 255 and the input itself
    otherwise; what it returns is the percentage of that brightness, not the
    brightness. *)
Theorem normalize_brightness_stores (w : World) :
  (_brightness (self w) = None ->
     fst (normalize_brightness None w) = Ok 100 /\
     _brightness (self (snd (normalize_brightness None w))) = Some 255) /\
  (forall n, n < 2 ->
     fst (normalize_brightness (Some n) w) = Ok 0 /\
     _brightness (self (snd (normalize_brightness (Some n) w))) = Some 2) /\
  (forall n, 255 < n ->
     fst (normalize_brightness (Some n) w) = Ok 100 /\
     _brightness (self (snd (normalize_brightness (Some n) w))) = Some 255) /\
  (forall n, 2 <= n <= 255 ->
     fst (normalize_brightness (Some n) w) = Ok (n * 100 / 255) /\
     _brightness (self (snd (normalize_brightness (Some n) w))) = Some n).
Proof.
  unfold normalize_brightness, bind, log, assign, modify, get_self, gets,
    ret, raise.
  repeat split.
  - cbn. rewrite H. reflexivity.
  - cbn. rewrite H. reflexivity.
  - cbn. destruct (Z.ltb_spec n 2); [|lia]. reflexivity.
  - cbn. destruct (Z.ltb_spec n 2); [|lia]. reflexivity.
  - cbn. destruct (Z.ltb_spec n 2); [lia|].
    destruct (Z.ltb_spec 255 n); [|lia]. reflexivity.
  - cbn. destruct (Z.ltb_spec n 2); [lia|].
    destruct (Z.ltb_spec 255 n); [|lia]. reflexivity.
  - cbn. destruct (Z.ltb_spec n 2); [lia|].
    destruct (Z.ltb_spec 255 n); [lia|]. cbn.
    rewrite int_truediv_percent by lia. reflexivity.
  - cbn. destruct (Z.ltb_spec n 2); [lia|].
    destruct (Z.ltb_spec 255 n); [lia|]. reflexivity.
Qed.

(** What [normalize_brightness] returns for [None] with nothing stored is
    100, not 255; and for [None] with a stored brightness of 1 it raises
    instead of passing anything through. *)
Lemma normalize_brightness_returns_percent :
  let w := boot (set_brightness None (sample_instance None)) transport_ok in
  let w1 := boot (set_brightness (Some 1) (sample_instance None)) transport_ok in
  fst (normalize_brightness None w) = Ok 100 /\
  fst (normalize_brightness None w) <> Ok 255 /\
  fst (normalize_brightness (Some 128) w) = Ok 50 /\
  fst (normalize_brightness None w1) =
    Raise (mkExc TypeError
             "'<' not supported between instances of 'NoneType' and 'int'").
Proof. vm_compute. repeat split; discriminate. Qed.

Lemma normalize_brightness_stores_witness :
  let w := boot (sample_instance None) transport_ok in
  fst (normalize_brightness (Some 300) w) = Ok 100 /\
  _brightness (self (snd (normalize_brightness (Some 300) w))) = Some 255.
Proof.
  intros w.
  apply (proj1 (proj2 (proj2 (normalize_brightness_stores w)))). lia.
Defined.

(** ** What a command writes *)

Lemma write_only_writes (data : option bytearray) :
  keeps (only_adds (writes_only data)) (_write data).
Proof. keeps_with only_adds_base. Qed.

Lemma ensure_connected_no_write (data : option bytearray) :
  keeps (only_adds (writes_only data)) _ensure_connected.
Proof. keeps_with only_adds_base. Qed.

(** A [_write] that returns has written its data. *)
Lemma write_ok_wrote (data : option bytearray) (w : World) :
  fst (_write data w) = Ok tt ->
  exists evs,
    extends w (snd (_write data w)) evs /\
    Forall (writes_only data) evs /\
    exists c ch, In (EvWrite c ch data) evs.
Proof.
  unfold _write, bind. intros Hok.
  destruct (ensure_connected_no_write data w) as (evs1 & Hext1 & Hall1).
  destruct (_ensure_connected w) as [[[]|e] w1]; [|discriminate Hok].
  cbn [snd] in Hext1.
  revert Hok. unfold _write_while_connected, write_gatt_char, transport_call,
    bind, log, modify, get_self, gets, ret, raise. cbn.
  destruct (_client (self w1)) as [c|]; [|discriminate].
  intros Hok.
  exists (EvWrite (client_id c) (_write_uuid (self w1)) data ::
          EvLog DEBUG "Writing data to {self.name}: {data}" :: evs1).
  split; [|split].
  - unfold extends in *. clear Hok.
    match goal with
    | |- context [match ?o with ReplyOk _ => _ | ReplyErr _ => _ end] =>
        destruct o
    end; unfold emit, bump_tick, upd_env; cbn; rewrite Hext1; reflexivity.
  - constructor; [reflexivity|]. constructor; [exact I|exact Hall1].
  - exists (client_id c), (_write_uuid (self w1)). left. reflexivity.
Qed.

(** A decorated command whose every attempt comes down to one [_write] of
    the same packet: whatever it writes is that packet, and when it returns
    it has written it. *)
Lemma retry_writes_only (body : M unit) (pkt : option bytearray) :
  (forall w, exists w0,
     only_adds (writes_only pkt) w w0 /\ body w = _write pkt w0) ->
  forall w,
    exists evs,
      extends w (snd (retry_bluetooth_connection_error body w)) evs /\
      Forall (writes_only pkt) evs /\
      (forall u, fst (retry_bluetooth_connection_error body w) = Ok u ->
                 exists c ch, In (EvWrite c ch pkt) evs).
Proof.
  intros Hbody w.
  assert (Hkeeps : keeps (only_adds (writes_only pkt)) body).
  { intros w1. destruct (Hbody w1) as (w0 & H0 & ->).
    etransitivity; [exact H0|apply write_only_writes]. }
  pose proof (retry_never_none body w) as Hnone.
  pose proof (@retry_loop_result (only_adds (writes_only pkt)) _ unit body 2
                [0; 1; 2]%nat) as Hres.
  assert (Hfail : forall w0 e w1,
            body w0 = (Raise e, w1) -> only_adds (writes_only pkt) w0 w1).
  { intros w0 e w1 Hrun. specialize (Hkeeps w0). rewrite Hrun in Hkeeps.
    exact Hkeeps. }
  assert (Hquiet : forall e w0,
            is_quiet e = true -> only_adds (writes_only pkt) w0 (emit e w0)).
  { intros e w0 He. exists [e]. split; [reflexivity|].
    constructor; [|constructor]. destruct e; cbn; auto; discriminate. }
  specialize (Hres Hfail Hquiet w).
  unfold retry_bluetooth_connection_error in *.
  cbn [DEFAULT_ATTEMPTS seq Nat.sub] in *.
  destruct (retry_loop body 2 [0; 1; 2]%nat w) as [[[u|]|e] w']; cbn [fst snd] in *.
  - destruct Hres as (wk & (evs1 & Hext1 & Hall1) & Hrun).
    destruct (Hbody wk) as (w0 & (evs2 & Hext2 & Hall2) & Hb).
    rewrite Hb in Hrun.
    assert (Hok : fst (_write pkt w0) = Ok tt)
      by (rewrite Hrun; destruct u; reflexivity).
    destruct (write_ok_wrote pkt w0 Hok) as (evs3 & Hext3 & Hall3 & c & ch & Hin).
    rewrite Hrun in Hext3. cbn [snd] in Hext3.
    exists (evs3 ++ evs2 ++ evs1). split; [|split].
    + unfold extends in *. rewrite Hext3, Hext2, Hext1.
      rewrite <- !app_assoc. reflexivity.
    + apply Forall_app. split; [exact Hall3|].
      apply Forall_app. split; assumption.
    + intros ? _. exists c, ch. apply in_or_app. left. exact Hin.
  - exfalso. apply Hnone. reflexivity.
  - destruct Hres as (evs & Hext & Hall). exists evs.
    split; [exact Hext|]. split; [exact Hall|]. discriminate.
Qed.

(** ** C6: brightness scaling in [set_rgb_color] *)

Lemma append_byte (p : bytearray) (x : Z) :
  0 <= x <= 255 -> bytearray_append p x = Ok (p ++ [x]).
Proof.
  intros Hx. unfold bytearray_append.
  destruct (Z.leb_spec 0 x); [|lia]. destruct (Z.ltb_spec x 256); [|lia].
  reflexivity.
Qed.

Lemma int_truediv_channel (c b : Z) :
  0 <= c <= 255 -> 0 <= b <= 255 ->
  int_truediv (c * int_truediv (b * 100) 255) 100 = scaled_channel c b.
Proof.
  intros Hc Hb. rewrite int_truediv_percent by exact Hb.
  pose proof (percent_range b Hb) as Hp.
  rewrite int_truediv_100 by nia. reflexivity.
Qed.

Lemma set_rgb_color_body_scaled (r g bl b : Z) (w : World) :
  0 <= b <= 255 -> 0 <= r <= 255 -> 0 <= g <= 255 -> 0 <= bl <= 255 ->
  set_rgb_color_body (Some (r, g, bl)) (Some b) w =
    _write (Some [0x69; 0x96; 0x05; 0x02;
                  scaled_channel r b; scaled_channel g b; scaled_channel bl b])
      (upd_self (set_rgb (Some (r, g, bl))) w).
Proof.
  intros Hb Hr Hg Hbl.
  pose proof (scaled_channel_range r b Hr Hb).
  pose proof (scaled_channel_range g b Hg Hb).
  pose proof (scaled_channel_range bl b Hbl Hb).
  unfold set_rgb_color_body, bind, assign, modify, get_self, gets, ret, lift.
  cbn -[int_truediv scaled_channel _write].
  rewrite !int_truediv_channel by assumption.
  rewrite !append_byte by lia. cbn -[scaled_channel _write]. reflexivity.
Qed.

(** C6.  For a brightness [b] and channels in [0, 255], every attempt of
    [set_rgb_color] hands to [_write] the packet [69 96 05 02] followed by
    the channels scaled to [floor(channel * floor(b * 100 / 255) / 100)];
    the call writes nothing else, and when it returns it has written that
    packet.  With [b = 0] the three bytes are 0; with [b = 255] the
    percentage is exactly 100 and the channels are unchanged. *)
Theorem set_rgb_color_scales (r g bl b : Z) (w : World) :
  0 <= b <= 255 -> 0 <= r <= 255 -> 0 <= g <= 255 -> 0 <= bl <= 255 ->
  let rgb := Some (r, g, bl) in
  let pkt := Some [0x69; 0x96; 0x05; 0x02;
                   scaled_channel r b; scaled_channel g b; scaled_channel bl b] in
  set_rgb_color_body rgb (Some b) w = _write pkt (upd_self (set_rgb rgb) w) /\
  (exists evs,
     extends w (snd (set_rgb_color rgb (Some b) w)) evs /\
     Forall (writes_only pkt) evs /\
     (forall u, fst (set_rgb_color rgb (Some b) w) = Ok u ->
                exists c ch, In (EvWrite c ch pkt) evs)) /\
  (b = 0 -> pkt = Some [0x69; 0x96; 0x05; 0x02; 0; 0; 0]) /\
  (b = 255 -> b * 100 / 255 = 100 /\
              pkt = Some [0x69; 0x96; 0x05; 0x02; r; g; bl]).
Proof.
  intros Hb Hr Hg Hbl rgb pkt. split; [|split; [|split]].
  - apply set_rgb_color_body_scaled; assumption.
  - unfold set_rgb_color. apply retry_writes_only. intros w0.
    exists (upd_self (set_rgb rgb) w0). split.
    + exists []. split; [reflexivity|constructor].
    + apply set_rgb_color_body_scaled; assumption.
  - intros ->. subst pkt. unfold scaled_channel.
    change (0 * 100 / 255) with 0. rewrite !Z.mul_0_r. reflexivity.
  - intros ->. subst pkt. unfold scaled_channel.
    change (255 * 100 / 255) with 100. split; [reflexivity|].
    rewrite !Z.div_mul by lia. reflexivity.
Qed.

Lemma set_rgb_color_scales_witness :
  let w := boot (sample_instance (Some 5)) transport_ok in
  set_rgb_color_body (Some (255, 0, 0)) (Some 128) w =
    _write (Some [0x69; 0x96; 0x05; 0x02; 127; 0; 0])
      (upd_self (set_rgb (Some (255, 0, 0))) w).
Proof.
  intros w.
  apply (proj1 (set_rgb_color_scales 255 0 0 128 w
                  ltac:(lia) ltac:(lia) ltac:(lia) ltac:(lia))).
Defined.

(** ** C5: the effect table and the effect packet *)

Lemma set_effect_body_packet (name : string) (code : Z) (w : World) :
  In (name, code) EFFECT_MAP ->
  set_effect_body name w =
    _write (Some [0x69; 0x96; 0x03; 0x03; code; 0x01])
      (emit (EvLog DEBUG "Effect name: %s")
         (emit (EvLog DEBUG "Effect ID: %s")
            (upd_self (set_effect_name (Some name)) w))).
Proof.
  intros Hin. cbn in Hin.
  repeat (destruct Hin as [Hin|Hin];
          [injection Hin as <- <-; reflexivity|]).
  contradiction.
Qed.

(** C5.  The table is the one the specification lists (twenty names, codes
    [0x00] to [0x14] without [0x0b]); no name and no code occurs twice, so
    names and codes correspond one to one.  For every entry, each attempt
    of [set_effect] hands to [_write] the six bytes [69 96 03 03 code 01];
    the call writes nothing else, and when it returns it has written them. *)
Theorem set_effect_packet :
  EFFECT_MAP =
    [ ("colorloop", 0x00); ("red_fade", 0x01); ("green_fade", 0x02);
      ("blue_fade", 0x03); ("yellow_fade", 0x04); ("cyan_fade", 0x05);
      ("purple_fade", 0x06); ("white_fade", 0x07); ("rg_cross_fade", 0x08);
      ("rb_cross_fade", 0x09); ("gb_cross_fade", 0x0a); ("colorstrobe", 0x0c);
      ("red_strobe", 0x0d); ("green_strobe", 0x0e); ("blue_strobe", 0x0f);
      ("yellow_strobe", 0x10); ("cyan_strobe", 0x11); ("purple_strobe", 0x12);
      ("white_strobe", 0x13); ("colorjump", 0x14) ] /\
  NoDup (map fst EFFECT_MAP) /\
  NoDup (map snd EFFECT_MAP) /\
  ~ In 0x0b (map snd EFFECT_MAP) /\
  forall name code,
    In (name, code) EFFECT_MAP ->
    let pkt := [0x69; 0x96; 0x03; 0x03; code; 0x01] in
    List.length pkt = 6%nat /\
    0 <= code <= 0x14 /\
    (forall w,
       set_effect_body name w =
         _write (Some pkt)
           (emit (EvLog DEBUG "Effect name: %s")
              (emit (EvLog DEBUG "Effect ID: %s")
                 (upd_self (set_effect_name (Some name)) w)))) /\
    (forall w, exists evs,
       extends w (snd (set_effect name w)) evs /\
       Forall (writes_only (Some pkt)) evs /\
       (forall u, fst (set_effect name w) = Ok u ->
                  exists c ch, In (EvWrite c ch (Some pkt)) evs)).
Proof.
  split; [reflexivity|].
  split.
  { cbn. repeat (constructor;
      [cbn; intros H; repeat (destruct H as [H|H]; [discriminate H|]);
       exact H|]).
    constructor. }
  split.
  { cbn. repeat (constructor;
      [cbn; intros H; repeat (destruct H as [H|H]; [discriminate H|]);
       exact H|]).
    constructor. }
  split.
  { cbn. intros H. repeat (destruct H as [H|H]; [discriminate H|]). exact H. }
  intros name code Hin pkt. split; [reflexivity|]. split.
  { clear pkt. cbn in Hin.
    repeat (destruct Hin as [Hin|Hin]; [injection Hin as <- <-; lia|]).
    contradiction. }
  split.
  - intros w. apply set_effect_body_packet, Hin.
  - intros w. unfold set_effect. apply retry_writes_only. intros w0.
    eexists. split; [|apply set_effect_body_packet, Hin].
    exists [EvLog DEBUG "Effect name: %s"; EvLog DEBUG "Effect ID: %s"].
    split; [reflexivity|]. repeat constructor.
Qed.

Lemma set_effect_packet_witness :
  let w := boot (sample_instance (Some 5)) transport_ok in
  set_effect_body "colorjump" w =
    _write (Some [0x69; 0x96; 0x03; 0x03; 0x14; 0x01])
      (emit (EvLog DEBUG "Effect name: %s")
         (emit (EvLog DEBUG "Effect ID: %s")
            (upd_self (set_effect_name (Some "colorjump")) w))).
Proof.
  intros w.
  refine (proj1 (proj2 (proj2
    (proj2 (proj2 (proj2 (proj2 set_effect_packet))) "colorjump" 0x14 _))) w).
  cbn. tauto.
Defined.

(** ** C3: the retry policy *)

(** How the [except] clauses sort an exception. *)
Lemma except_clauses (e : PyExc) :
  (exc_type e = BleakNotFoundError /\
   isinstance e [BleakNotFoundError] = true) \/
  (exc_type e = BleakDBusError /\
   isinstance e [BleakNotFoundError] = false /\
   isinstance e RETRY_BACKOFF_EXCEPTIONS = true) \/
  (other_retryable (exc_type e) /\
   isinstance e [BleakNotFoundError] = false /\
   isinstance e RETRY_BACKOFF_EXCEPTIONS = false /\
   isinstance e BLEAK_EXCEPTIONS = true) \/
  (never_handled (exc_type e) /\
   isinstance e [BleakNotFoundError] = false /\
   isinstance e RETRY_BACKOFF_EXCEPTIONS = false /\
   isinstance e BLEAK_EXCEPTIONS = false).
Proof.
  destruct e as [[] msg]; unfold other_retryable, never_handled; cbn;
    intuition congruence.
Qed.

Lemma retry_loop_step {A} (func : M A) (k N : nat) (rest : list nat) :
  (k <= 2)%nat ->
  ((k < 2)%nat -> forall w, exists n,
      (1 <= n <= N)%nat /\
      retry_outcome func (S k) w n
        (fst (retry_loop func 2 rest w)) (snd (retry_loop func 2 rest w))) ->
  forall w, exists n,
    (1 <= n <= S N)%nat /\
    retry_outcome func k w n
      (fst (retry_loop func 2 (k :: rest) w))
      (snd (retry_loop func 2 (k :: rest) w)).
Proof.
  intros Hk Hnext w. cbn [retry_loop].
  destruct (func w) as [[v|e] w1] eqn:Hrun.
  - exists 1%nat. split; [lia|]. cbn [fst snd]. apply outcome_returned, Hrun.
  - destruct (except_clauses e)
      as [(Hc & H1)|[(Hc & H1 & H2)|[(Hc & H1 & H2 & H3)|(Hc & H1 & H2 & H3)]]];
      rewrite H1; try rewrite H2; try rewrite H3.
    + exists 1%nat. split; [lia|]. cbn [fst snd].
      apply (outcome_not_found func k w e w1 Hrun Hc).
    + destruct (Nat.leb_spec 2 k) as [Hlast|Hmore].
      * exists 1%nat. split; [lia|].
        unfold bind, log, modify, raise. cbn [fst snd].
        apply outcome_exhausted; [lia|exact Hrun|left; exact Hc].
      * unfold bind, log, sleep, modify. cbn [fst snd].
        destruct (Hnext Hmore
                    (emit (EvSleep BLEAK_BACKOFF_TIME)
                       (emit (EvLog DEBUG
                          "%s: %s error calling %s, backing off %ss, retrying (%s/%s)...")
                          w1)))
          as (n & Hn & Hout).
        exists (S n). split; [lia|].
        eapply outcome_backoff; [exact Hmore|exact Hrun|exact Hc| |exact Hout].
        reflexivity.
    + destruct (Nat.leb_spec 2 k) as [Hlast|Hmore].
      * exists 1%nat. split; [lia|].
        unfold bind, log, modify, raise. cbn [fst snd].
        apply outcome_exhausted; [lia|exact Hrun|right; exact Hc].
      * unfold bind, log, modify. cbn [fst snd].
        destruct (Hnext Hmore
                    (emit (EvLog DEBUG
                       "%s: %s error calling %s, retrying  (%s/%s)...: %s") w1))
          as (n & Hn & Hout).
        exists (S n). split; [lia|].
        eapply outcome_retry; [exact Hmore|exact Hrun|exact Hc|exact Hout].
    + exists 1%nat. split; [lia|]. cbn [fst snd].
      apply (outcome_not_handled func k w e w1 Hrun Hc).
Qed.

Lemma retry_outcome_holds {A} (func : M A) (w : World) :
  exists n,
    (1 <= n <= 3)%nat /\
    retry_outcome func 0 w n
      (fst (retry_bluetooth_connection_error func w))
      (snd (retry_bluetooth_connection_error func w)).
Proof.
  unfold retry_bluetooth_connection_error.
  cbn [DEFAULT_ATTEMPTS seq Nat.sub].
  revert w. apply retry_loop_step; [lia|]. intros _.
  apply retry_loop_step; [lia|]. intros _.
  apply retry_loop_step; [lia|]. intros H. lia.
Qed.

(** C3.  The decorated call invokes the wrapped operation [n] times with
    [1 <= n <= 3], attempt after attempt as the policy says: a returned
    value ends the call; [BleakNotFoundError] is re-raised at once; a
    [BleakDBusError] before the third attempt is logged, followed by a sleep
    of a quarter of a second and then by the next attempt; another error of
    [BLEAK_EXCEPTIONS] before the third attempt is logged and followed by
    the next attempt with no sleep; at the third attempt either kind is
    logged and re-raised as it is.  The call never ends without a value or
    an exception of the wrapped operation. *)
Theorem retry_policy {A} (func : M A) (w : World) :
  (exists n,
     (1 <= n <= 3)%nat /\
     retry_outcome func 0 w n
       (fst (retry_bluetooth_connection_error func w))
       (snd (retry_bluetooth_connection_error func w))) /\
  fst (retry_bluetooth_connection_error func w) <> Ok None /\
  (BLEAK_BACKOFF_TIME == 1 # 4)%Q /\
  DEFAULT_ATTEMPTS = 3%nat.
Proof.
  split; [apply retry_outcome_holds|].
  split; [apply retry_never_none|].
  split; reflexivity.
Qed.

(** ** The connection life cycle *)

Lemma resolve_write_read_uuid (svc : BleakGATTServiceCollection)
    (l : list string) (s : BJLEDInstance) :
  _read_uuid (resolve_write svc l s) = _read_uuid s.
Proof.
  induction l as [|u r IH]; cbn -[get_characteristic]; [reflexivity|].
  destruct (get_characteristic svc u); [reflexivity|exact IH].
Qed.

Lemma get_characteristic_In (svc : BleakGATTServiceCollection) (uuid : string) :
  In uuid svc -> get_characteristic svc uuid = Some uuid.
Proof.
  unfold get_characteristic. induction svc as [|c r IH]; intros Hin.
  - contradiction.
  - cbn. destruct (String.eqb_spec uuid c) as [->|Hne]; [reflexivity|].
    destruct Hin as [->|Hin]; [contradiction|]. apply IH, Hin.
Qed.

Lemma get_characteristic_not_In (svc : BleakGATTServiceCollection)
    (uuid : string) :
  ~ In uuid svc -> get_characteristic svc uuid = None.
Proof.
  unfold get_characteristic. induction svc as [|c r IH]; intros Hin.
  - reflexivity.
  - cbn. destruct (String.eqb_spec uuid c) as [->|Hne].
    + exfalso. apply Hin. left. reflexivity.
    + apply IH. intros H. apply Hin. right. exact H.
Qed.

Lemma resolve_characteristics_run (svc : BleakGATTServiceCollection)
    (w : World) :
  _resolve_characteristics svc w =
    (Ok (truthy (_read_uuid (self w)) &&
         truthy (_write_uuid
                   (resolve_write svc WRITE_CHARACTERISTIC_UUIDS (self w)))),
     upd_self (resolve_write svc WRITE_CHARACTERISTIC_UUIDS) w).
Proof.
  unfold _resolve_characteristics, bind, assign, modify, get_self, gets, ret.
  cbn -[resolve_write]. rewrite resolve_write_read_uuid. reflexivity.
Qed.

(** [_reset_disconnect_timer] never raises and leaves the connection
    attributes and the lighting state alone. *)
Lemma reset_disconnect_timer_ok (w : World) :
  fst (_reset_disconnect_timer w) = Ok tt.
Proof.
  unfold _reset_disconnect_timer, cancel, call_later, fresh, when, log, assign,
    get_self, bind, gets, modify, ret.
  cbn. destruct (_disconnect_timer (self w)); cbn;
    destruct (_delay (self w)) as [d|]; cbn; try reflexivity;
    destruct (negb (d =? 0)); reflexivity.
Qed.

Lemma reset_disconnect_timer_connection :
  keeps (same_on connection) _reset_disconnect_timer.
Proof. keeps_with same_on_base. Qed.

Lemma reset_disconnect_timer_fields (w : World) :
  let w' := snd (_reset_disconnect_timer w) in
  _client (self w') = _client (self w) /\
  _write_uuid (self w') = _write_uuid (self w) /\
  _read_uuid (self w') = _read_uuid (self w) /\
  _cached_services (self w') = _cached_services (self w).
Proof.
  pose proof (reset_disconnect_timer_connection w) as Hk.
  unfold same_on, connection in Hk. cbn zeta.
  repeat split; congruence.
Qed.

(** The three ways through [_ensure_connected]. *)
Lemma ensure_connected_live (w : World) :
  client_live w = true -> _ensure_connected w = _reset_disconnect_timer w.
Proof.
  intros Hlive. unfold _ensure_connected.
  unfold bind at 1. unfold gets at 1. rewrite Hlive. reflexivity.
Qed.

Lemma ensure_connected_fails (w : World) (e : PyExc) :
  client_live w = false ->
  oracle (env w) (tick (env w)) = ReplyErr e ->
  _ensure_connected w =
    (Raise e,
     bump_tick (emit (EvConnect (_cached_services (self w)))
                  (emit (EvLog DEBUG "%s: Connecting") w))).
Proof.
  intros Hlive Hor. unfold _ensure_connected.
  unfold bind at 1. unfold gets at 1. rewrite Hlive.
  unfold bind at 1. unfold gets at 1. rewrite Hlive.
  unfold establish_connection, transport_call, fresh, log, assign, get_self.
  unfold bind, gets, modify, ret, raise.
  cbn -[_reset_disconnect_timer _resolve_characteristics resolve_write].
  rewrite Hor. reflexivity.
Qed.

Lemma ensure_connected_connects (w : World) (svc : BleakGATTServiceCollection) :
  client_live w = false ->
  oracle (env w) (tick (env w)) = ReplyOk svc ->
  _ensure_connected w = _reset_disconnect_timer (connected_world svc w).
Proof.
  intros Hlive Hor. unfold _ensure_connected.
  unfold bind at 1. unfold gets at 1. rewrite Hlive.
  unfold bind at 1. unfold gets at 1. rewrite Hlive.
  unfold establish_connection, transport_call, fresh, log, assign, get_self.
  unfold bind, gets, modify, ret.
  cbn -[_reset_disconnect_timer _resolve_characteristics resolve_write].
  rewrite Hor.
  cbn -[_reset_disconnect_timer _resolve_characteristics resolve_write].
  rewrite resolve_characteristics_run.
  cbn -[_reset_disconnect_timer _resolve_characteristics resolve_write].
  unfold connected_world.
  destruct (truthy (_read_uuid (self w)) &&
            truthy (_write_uuid
                      (resolve_write svc WRITE_CHARACTERISTIC_UUIDS (self w))))
    eqn:Hres;
    cbn -[_reset_disconnect_timer _resolve_characteristics resolve_write].
  - reflexivity.
  - rewrite resolve_characteristics_run.
    cbn -[_reset_disconnect_timer _resolve_characteristics resolve_write].
    rewrite !resolve_write_read_uuid.
    destruct (truthy (_read_uuid (self w)) && _); reflexivity.
Qed.

(** ** C9: the service cache after a connect *)

(** C9, evaluated on the code.  [_resolve_characteristics] answers
    [bool(self._read_uuid and self._write_uuid)] and nothing ever assigns
    [_read_uuid]: after a successful connect the cache is [None], also when
    the write characteristic was found and stored in [_write_uuid]. *)
Theorem connect_discards_service_cache (w : World)
    (svc : BleakGATTServiceCollection) :
  _read_uuid (self w) = None ->
  client_live w = false ->
  oracle (env w) (tick (env w)) = ReplyOk svc ->
  In "0000ee01-0000-1000-8000-00805f9b34fb" svc ->
  let w' := snd (_ensure_connected w) in
  fst (_ensure_connected w) = Ok tt /\
  _write_uuid (self w') = Some "0000ee01-0000-1000-8000-00805f9b34fb" /\
  _client (self w') = Some (mkClient (next_id (env w)) svc) /\
  _cached_services (self w') = None.
Proof.
  intros Hread Hlive Hor Hin w'. subst w'.
  rewrite (ensure_connected_connects w svc Hlive Hor).
  split; [apply reset_disconnect_timer_ok|].
  destruct (reset_disconnect_timer_fields (connected_world svc w))
    as (Hc & Hw & _ & Hs).
  rewrite Hc, Hw, Hs.
  unfold connected_world. rewrite Hread.
  cbn -[get_characteristic].
  repeat (rewrite (get_characteristic_In _ _ Hin); cbn -[get_characteristic]).
  repeat split.
Qed.

Lemma connect_discards_service_cache_witness :
  let w := boot (sample_instance (Some 5)) transport_ok in
  let w' := snd (_ensure_connected w) in
  fst (_ensure_connected w) = Ok tt /\
  _write_uuid (self w') = Some "0000ee01-0000-1000-8000-00805f9b34fb" /\
  _client (self w') =
    Some (mkClient 0 ["0000ee01-0000-1000-8000-00805f9b34fb"]) /\
  _cached_services (self w') = None.
Proof.
  intros w.
  apply (connect_discards_service_cache w
           ["0000ee01-0000-1000-8000-00805f9b34fb"]);
    try reflexivity.
  left. reflexivity.
Defined.

(** ** Invariants of the session *)

Lemma detect_model_loop_fields (names : list string) (x : nat)
    (s : BJLEDInstance) :
  let s' := snd (detect_model_loop names x s) in
  _client s' = _client s /\ _write_uuid s' = _write_uuid s /\
  _read_uuid s' = _read_uuid s /\
  _cached_services s' = _cached_services s /\
  _disconnect_timer s' = _disconnect_timer s /\
  _brightness s' = _brightness s /\ _delay s' = _delay s /\
  _device s' = _device s /\
  _is_on s' = _is_on s /\ _rgb_color s' = _rgb_color s /\
  _effect s' = _effect s /\
  _expected_disconnect s' = _expected_disconnect s.
Proof.
  revert x. induction names as [|n r IH]; intros x; cbn -[lower startswith].
  - repeat split.
  - destruct (startswith (lower (device_name (_device s))) (lower n)).
    + destruct (nth_error TURN_ON_CMD x); [|cbn; repeat split].
      destruct (nth_error TURN_OFF_CMD x); cbn; repeat split.
    + apply IH.
Qed.

Lemma init_fields (device : BLEDevice) (address : string) (reset : bool)
    (delay : option Z) (s : BJLEDInstance) :
  __init__ (Some device) address reset delay = Ok s ->
  _client s = None /\ _write_uuid s = None /\ _read_uuid s = None /\
  _cached_services s = None /\ _disconnect_timer s = None /\
  _brightness s = Some 255 /\ _delay s = delay /\ _device s = device /\
  _is_on s = None /\ _rgb_color s = None /\ _effect s = None /\
  _expected_disconnect s = false.
Proof.
  unfold __init__, _detect_model.
  match goal with
  | |- context [detect_model_loop ?n ?x ?s0] =>
      pose proof (detect_model_loop_fields n x s0) as Hf;
      destruct (detect_model_loop n x s0) as [[m|e] s1]
  end; [|discriminate].
  cbn in Hf. intros H. injection H as <-. cbn. exact Hf.
Qed.

Lemma reachable_invariant (I : World -> Prop) :
  (forall device address reset delay s transport,
     __init__ (Some device) address reset delay = Ok s ->
     I (boot s transport)) ->
  (forall a, keeps (maintains I) (perform a)) ->
  forall w, reachable w -> I w.
Proof.
  intros Hboot Hstep w Hw. induction Hw as [d a r dl s t Hinit|a w Hw IH].
  - apply (Hboot d a r dl s t Hinit).
  - apply (Hstep a w IH).
Qed.

(** Every action of the session is made of its methods. *)
Ltac perform_keeps base :=
  let a := fresh "a" in
  intros a; destruct a; unfold perform; keeps_with base.

(** *** C2: the write characteristic and the client *)

Lemma execute_disconnect_run (w : World) :
  _execute_disconnect w =
    ((match _client (self w) with
      | Some c => live <- gets (is_connected c) ;; when live (client_disconnect c)
      | None => ret tt
      end ;;
      log DEBUG "%s: Disconnected")%py
       (upd_self (set_write_uuid None)
          (upd_self (set_client None)
             (upd_self (set_expected_disconnect true) w)))).
Proof. reflexivity. Qed.

Lemma execute_disconnect_clears (w : World) :
  let w' := snd (_execute_disconnect w) in
  _client (self w') = None /\ _write_uuid (self w') = None /\
  _expected_disconnect (self w') = true /\
  lighting (self w') = lighting (self w) /\
  _cached_services (self w') = _cached_services (self w).
Proof.
  cbn zeta. rewrite execute_disconnect_run.
  match goal with
  | |- context [snd (?rest ?w0)] =>
      assert (Hk : keeps (same_on (fun s : BJLEDInstance => s)) rest)
        by keeps_with same_on_base;
      specialize (Hk w0); unfold same_on in Hk; rewrite Hk
  end.
  repeat split.
Qed.

Lemma ensure_connected_uuid_needs_client :
  keeps (maintains uuid_needs_client) _ensure_connected.
Proof.
  intros w HI. unfold uuid_needs_client in *.
  destruct (client_live w) eqn:Hlive.
  - rewrite (ensure_connected_live w Hlive).
    destruct (reset_disconnect_timer_fields w) as (Hc & Hw & _).
    rewrite Hc, Hw. exact HI.
  - destruct (oracle (env w) (tick (env w))) as [svc|e] eqn:Hor.
    + rewrite (ensure_connected_connects w svc Hlive Hor).
      destruct (reset_disconnect_timer_fields (connected_world svc w))
        as (Hc & _).
      rewrite Hc. intros _. discriminate.
    + rewrite (ensure_connected_fails w e Hlive Hor). exact HI.
Qed.

Lemma execute_disconnect_uuid_needs_client :
  keeps (maintains uuid_needs_client) _execute_disconnect.
Proof.
  intros w _. unfold uuid_needs_client.
  destruct (execute_disconnect_clears w) as (_ & Hw & _).
  rewrite Hw. intros H. contradiction.
Qed.

Ltac uuid_base := unfold maintains, uuid_needs_client; cbn; auto.

Lemma perform_uuid_needs_client (a : Action) :
  keeps (maintains uuid_needs_client) (perform a).
Proof.
  pose proof ensure_connected_uuid_needs_client as Hens.
  pose proof execute_disconnect_uuid_needs_client as Hdis.
  revert a. perform_keeps uuid_base.
Qed.

(** C2, as the code has it.  At every quiescent point a write
    characteristic is held only if a client is held; after
    [_execute_disconnect] neither is held, whatever the transport answered;
    after [_ensure_connected] returned a client is held.  (The converse
    fails: a client is held without a write characteristic when the device
    does not offer it.) *)
Theorem write_uuid_implies_client :
  (forall w, reachable w ->
     _write_uuid (self w) <> None -> _client (self w) <> None) /\
  (forall w,
     _client (self (snd (_execute_disconnect w))) = None /\
     _write_uuid (self (snd (_execute_disconnect w))) = None) /\
  (forall w,
     fst (_ensure_connected w) = Ok tt ->
     _client (self (snd (_ensure_connected w))) <> None).
Proof.
  split; [|split].
  - intros w Hw. apply (reachable_invariant uuid_needs_client); [| |exact Hw].
    + intros d a r dl s t Hinit. destruct (init_fields d a r dl s Hinit)
        as (_ & Hu & _).
      unfold uuid_needs_client. cbn. rewrite Hu. intros H. contradiction.
    + apply perform_uuid_needs_client.
  - intros w. destruct (execute_disconnect_clears w) as (Hc & Hw & _).
    split; assumption.
  - intros w Hok.
    destruct (client_live w) eqn:Hlive.
    + rewrite (ensure_connected_live w Hlive).
      destruct (reset_disconnect_timer_fields w) as (Hc & _).
      rewrite Hc. unfold client_live in Hlive.
      destruct (_client (self w)); [discriminate|discriminate Hlive].
    + destruct (oracle (env w) (tick (env w))) as [svc|e] eqn:Hor.
      * rewrite (ensure_connected_connects w svc Hlive Hor).
        destruct (reset_disconnect_timer_fields (connected_world svc w))
          as (Hc & _).
        rewrite Hc. discriminate.
      * rewrite (ensure_connected_fails w e Hlive Hor) in Hok. discriminate Hok.
Qed.

(** A device that does not offer the write characteristic: after
    [_ensure_connected] returned, a client is held and no write
    characteristic is. *)
Lemma client_without_write_uuid :
  let w := boot (sample_instance (Some 5)) transport_no_char in
  reachable w /\
  fst (_ensure_connected w) = Ok tt /\
  _client (self (snd (_ensure_connected w))) = Some (mkClient 0 []) /\
  _write_uuid (self (snd (_ensure_connected w))) = None /\
  ~ (_write_uuid (self (step AEnsureConnected w)) <> None <->
     _client (self (step AEnsureConnected w)) <> None).
Proof.
  intros w. split; [|split; [|split; [|split]]].
  - apply (reach_boot sample_device "AA:BB:CC:DD:EE:FF" false (Some 5)).
    reflexivity.
  - reflexivity.
  - reflexivity.
  - reflexivity.
  - intros [_ H]. apply H; [discriminate|reflexivity].
Qed.

Lemma write_uuid_implies_client_witness :
  let w := step AEnsureConnected
             (boot (sample_instance (Some 5)) transport_ok) in
  _write_uuid (self w) = Some "0000ee01-0000-1000-8000-00805f9b34fb" /\
  exists c, _client (self w) = Some c.
Proof.
  intros w. split; [reflexivity|].
  assert (Hw : reachable w).
  { apply reach_step.
    apply (reach_boot sample_device "AA:BB:CC:DD:EE:FF" false (Some 5)).
    reflexivity. }
  assert (Hu : _write_uuid (self w) <> None) by discriminate.
  pose proof (proj1 write_uuid_implies_client w Hw Hu) as Hc.
  destruct (_client (self w)) as [c|].
  - exists c. reflexivity.
  - exfalso. apply Hc. reflexivity.
Defined.

(** *** C7: the idle-disconnect timer *)

Lemma remove_nat_same (h : nat) : remove_nat h [h] = [].
Proof. unfold remove_nat. cbn. rewrite Nat.eqb_refl. reflexivity. Qed.

(** What [_reset_disconnect_timer] leaves pending. *)
Lemma reset_disconnect_timer_timers (w : World) :
  timer_ok w ->
  let w' := snd (_reset_disconnect_timer w) in
  match _delay (self w) with
  | Some d =>
      if d =? 0 then timers (env w') = []
      else
        timers (env w') = [next_id (env w)] /\
        _disconnect_timer (self w') = Some (next_id (env w)) /\
        exists evs, trace (env w') = EvCallLater d (next_id (env w)) :: evs
  | None => timers (env w') = []
  end.
Proof.
  intros Hok.
  unfold _reset_disconnect_timer, cancel, call_later, fresh, when, log, assign,
    get_self, bind, gets, modify, ret.
  cbn.
  destruct Hok as [Hnil|(h & Hone & Hh)].
  - destruct (_disconnect_timer (self w)) as [h'|]; cbn;
      destruct (_delay (self w)) as [d|]; cbn; rewrite ?Hnil; cbn;
      try reflexivity;
      destruct (d =? 0); cbn; rewrite ?Hnil; cbn;
      try reflexivity; repeat split; eexists; reflexivity.
  - rewrite Hh. cbn.
    destruct (_delay (self w)) as [d|]; cbn; rewrite ?Hone, ?remove_nat_same;
      try reflexivity.
    destruct (d =? 0); cbn; rewrite ?Hone, ?remove_nat_same; cbn;
      try reflexivity; repeat split; eexists; reflexivity.
Qed.

Lemma reset_disconnect_timer_timer_ok :
  keeps (maintains timer_ok) _reset_disconnect_timer.
Proof.
  intros w Hok. pose proof (reset_disconnect_timer_timers w Hok) as H.
  cbn zeta in H. unfold timer_ok.
  destruct (_delay (self w)) as [d|]; [|left; exact H].
  destruct (d =? 0); [left; exact H|].
  destruct H as (Ht & Hd & _). right. exists (next_id (env w)).
  split; assumption.
Qed.

Lemma timer_fires_timer_ok (h : nat) :
  keeps (maintains timer_ok) (timer_fires h).
Proof.
  intros w Hok.
  unfold timer_fires, _disconnect, create_task, when, assign, bind, gets,
    modify, ret. cbn.
  destruct (mem_nat h (timers (env w))) eqn:Hmem; cbn; [|exact Hok].
  left. destruct Hok as [Hnil|(h0 & Hone & _)].
  - rewrite Hnil in Hmem. discriminate Hmem.
  - rewrite Hone in *. unfold mem_nat in Hmem. cbn in Hmem.
    rewrite orb_false_r in Hmem. apply Nat.eqb_eq in Hmem. subst h0.
    apply remove_nat_same.
Qed.

Ltac timer_base := unfold maintains, timer_ok; cbn; split_cases; cbn; auto.

Lemma perform_timer_ok (a : Action) : keeps (maintains timer_ok) (perform a).
Proof.
  pose proof reset_disconnect_timer_timer_ok as Hreset.
  pose proof timer_fires_timer_ok as Hfire.
  revert a. perform_keeps timer_base.
Qed.

Lemma reachable_timer_ok (w : World) : reachable w -> timer_ok w.
Proof.
  apply (reachable_invariant timer_ok).
  - intros d a r dl s t Hinit. left. reflexivity.
  - apply perform_timer_ok.
Qed.

(** C7, as the code has it.  In every reachable state at most one timer is
    pending.  A call of [_reset_disconnect_timer] never raises; after it,
    with no delay configured or a delay of 0 no timer is pending, and with
    any other delay (the test is [!= 0], so a negative one too) exactly one
    is: the new one, scheduled for that delay as the last thing done, the
    earlier one having been cancelled. *)
Theorem reset_disconnect_timer_policy (w : World) :
  reachable w ->
  (List.length (timers (env w)) <= 1)%nat /\
  let w' := snd (_reset_disconnect_timer w) in
  fst (_reset_disconnect_timer w) = Ok tt /\
  match _delay (self w) with
  | Some d =>
      if d =? 0 then timers (env w') = []
      else
        timers (env w') = [next_id (env w)] /\
        _disconnect_timer (self w') = Some (next_id (env w)) /\
        exists evs, trace (env w') = EvCallLater d (next_id (env w)) :: evs
  | None => timers (env w') = []
  end.
Proof.
  intros Hw. pose proof (reachable_timer_ok w Hw) as Hok. split.
  - destruct Hok as [->|(h & -> & _)]; cbn; lia.
  - cbn zeta. split; [apply reset_disconnect_timer_ok|].
    apply reset_disconnect_timer_timers, Hok.
Qed.

(** With a negative delay a timer is scheduled. *)
Lemma negative_delay_schedules_timer :
  let w := boot (sample_instance (Some (-1))) transport_ok in
  reachable w /\
  _delay (self w) = Some (-1) /\
  timers (env (snd (_reset_disconnect_timer w))) = [0%nat] /\
  events (snd (_reset_disconnect_timer w)) =
    [EvLog DEBUG "%s: Configured disconnect from device in %s seconds";
     EvCallLater (-1) 0].
Proof.
  intros w. split; [|repeat split].
  apply (reach_boot sample_device "AA:BB:CC:DD:EE:FF" false (Some (-1))).
  reflexivity.
Qed.

Lemma reset_disconnect_timer_policy_witness :
  let w := step ATurnOn (boot (sample_instance (Some 5)) transport_ok) in
  (List.length (timers (env w)) <= 1)%nat /\
  let w' := snd (_reset_disconnect_timer w) in
  fst (_reset_disconnect_timer w) = Ok tt /\
  match _delay (self w) with
  | Some d =>
      if d =? 0 then timers (env w') = []
      else
        timers (env w') = [next_id (env w)] /\
        _disconnect_timer (self w') = Some (next_id (env w)) /\
        exists evs, trace (env w') = EvCallLater d (next_id (env w)) :: evs
  | None => timers (env w') = []
  end.
Proof.
  intros w. apply reset_disconnect_timer_policy.
  apply reach_step.
  apply (reach_boot sample_device "AA:BB:CC:DD:EE:FF" false (Some 5)).
  reflexivity.
Defined.

(** ** C8: what teardown does with a failing disconnect *)

Lemma execute_disconnect_result (w : World) :
  fst (_execute_disconnect w) =
    match _client (self w) with
    | Some c =>
        if is_connected c w then
          match oracle (env w) (tick (env w)) with
          | ReplyOk _ => Ok tt
          | ReplyErr e => Raise e
          end
        else Ok tt
    | None => Ok tt
    end.
Proof.
  rewrite execute_disconnect_run.
  unfold client_disconnect, transport_call, _disconnected, when, log, assign,
    get_self, bind, gets, modify, ret, raise.
  destruct (_client (self w)) as [c|]; [|reflexivity].
  unfold is_connected. cbn.
  destruct (mem_nat (client_id c) (connected (env w))); [|reflexivity].
  cbn. destruct (oracle (env w) (tick (env w))); cbn; reflexivity.
Qed.

Lemma log_then_result {A} (level : LogLevel) (fmt : string) (c : M A)
    (w : World) :
  (forall e w0, fst (c (emit e w0)) = fst (c w0)) ->
  fst ((log level fmt ;; c)%py w) = fst (c w).
Proof. intros H. unfold bind, log, modify. cbn. apply H. Qed.

Lemma execute_disconnect_after_log (e : Event) (w : World) :
  fst (_execute_disconnect (emit e w)) = fst (_execute_disconnect w).
Proof. rewrite !execute_disconnect_result. reflexivity. Qed.

(** C8, as the code has it.  [stop] and [_execute_timed_disconnect] return
    when no connected client is held or the transport's [disconnect]
    succeeds.  Nothing catches an exception of [disconnect]: it comes out
    of [_execute_disconnect], [stop] and [_execute_timed_disconnect] as it
    is, after the client and the write characteristic were cleared, and
    the line saying the session is disconnected is not logged. *)
Theorem teardown_result (w : World) :
  let outcome :=
    match _client (self w) with
    | Some c =>
        if is_connected c w then
          match oracle (env w) (tick (env w)) with
          | ReplyOk _ => Ok tt
          | ReplyErr e => Raise e
          end
        else Ok tt
    | None => Ok tt
    end in
  fst (stop w) = outcome /\
  fst (_execute_timed_disconnect w) = outcome /\
  _client (self (snd (stop w))) = None /\
  _write_uuid (self (snd (stop w))) = None /\
  (forall c e,
     _client (self w) = Some c -> is_connected c w = true ->
     oracle (env w) (tick (env w)) = ReplyErr e ->
     fst (stop w) = Raise e /\
     trace (env (snd (stop w))) =
       EvDisconnect (client_id c) :: EvLog DEBUG "%s: Stop" :: trace (env w)).
Proof.
  cbn zeta. split; [|split; [|split; [|split]]].
  - unfold stop. rewrite log_then_result.
    + apply execute_disconnect_result.
    + intros. apply execute_disconnect_after_log.
  - unfold _execute_timed_disconnect. rewrite log_then_result.
    + apply execute_disconnect_result.
    + intros. apply execute_disconnect_after_log.
  - unfold stop, bind, log, modify. cbn.
    destruct (execute_disconnect_clears
                (emit (EvLog DEBUG "%s: Stop") w)) as (Hc & _). exact Hc.
  - unfold stop, bind, log, modify. cbn.
    destruct (execute_disconnect_clears
                (emit (EvLog DEBUG "%s: Stop") w)) as (_ & Hu & _). exact Hu.
  - intros c e Hc Hlive Hor.
    unfold stop, _execute_disconnect, client_disconnect, transport_call,
      _disconnected, when, log, assign, get_self, bind, gets, modify, ret,
      raise.
    unfold is_connected, mem_nat in *. cbn. rewrite Hc. cbn.
    rewrite Hlive. cbn. rewrite Hor. split; reflexivity.
Qed.

(** A connected session whose transport fails to disconnect: [stop] raises
    the transport's error; the same error ends the task of the idle
    timer. *)
Lemma stop_raises_disconnect_error :
  let e := mkExc BleakError "disconnect failed" in
  let w := step AEnsureConnected
             (boot (sample_instance (Some 5)) (transport_fail_after 1 e)) in
  fst (stop w) = Raise e /\
  fst (_execute_timed_disconnect w) = Raise e /\
  events (step ATaskRuns (step (ATimerFires 1) w)) =
    events w ++
    [EvCreateTask; EvLog DEBUG "%s: Disconnecting after timeout of %s";
     EvDisconnect 0; EvTaskException e].
Proof. vm_compute. repeat split. Qed.

Lemma teardown_result_witness :
  let e := mkExc BleakError "disconnect failed" in
  let w := step AEnsureConnected
             (boot (sample_instance (Some 5)) (transport_fail_after 1 e)) in
  fst (stop w) = Raise e /\
  trace (env (snd (stop w))) =
    EvDisconnect 0 :: EvLog DEBUG "%s: Stop" :: trace (env w).
Proof.
  intros e w.
  apply (proj2 (proj2 (proj2 (proj2 (teardown_result w))))
           (mkClient 0 ["0000ee01-0000-1000-8000-00805f9b34fb"]) e);
    reflexivity.
Defined.

(** * Further properties of the module *)

(** ** Effects outside the table *)

(** An effect name outside the table is refused: [set_effect] logs one
    error and returns at its first attempt; it connects to nothing, writes
    nothing and leaves every attribute as it was. *)
Theorem set_effect_unknown (effect : string) (w : World) :
  ~ In effect EFFECT_LIST ->
  set_effect effect w =
    (Ok (Some tt), emit (EvLog ERROR "Effect %s not supported") w).
Proof.
  intros Hnot.
  assert (Hex : existsb (String.eqb effect) EFFECT_LIST = false).
  { destruct (existsb (String.eqb effect) EFFECT_LIST) eqn:Hex; [|reflexivity].
    apply existsb_exists in Hex. destruct Hex as (x & Hin & Heq).
    apply String.eqb_eq in Heq. subst x. contradiction. }
  unfold set_effect, retry_bluetooth_connection_error, set_effect_body.
  rewrite Hex. reflexivity.
Qed.

Lemma set_effect_unknown_witness :
  let w := boot (sample_instance (Some 5)) transport_ok in
  set_effect EFFECT_RED_GREEN_BLUE_CROSS_FADE w =
    (Ok (Some tt), emit (EvLog ERROR "Effect %s not supported") w).
Proof.
  intros w. apply set_effect_unknown.
  cbn. intros H. repeat (destruct H as [H|H]; [discriminate H|]). exact H.
Defined.

(** ** The tables derived from [EFFECT_MAP] *)

(** [EFFECT_LIST] holds exactly the twenty names of the table, in ascending
    order, and [EFFECT_ID_NAME] is the table read backwards: a code maps to
    a name exactly when the name maps to the code. *)
Theorem effect_tables :
  (forall name, In name EFFECT_LIST <-> exists code, In (name, code) EFFECT_MAP) /\
  List.length EFFECT_LIST = 20%nat /\
  (forall i j a b,
     (i < j)%nat -> nth_error EFFECT_LIST i = Some a ->
     nth_error EFFECT_LIST j = Some b -> String.ltb a b = true) /\
  (forall name code, In (code, name) EFFECT_ID_NAME <-> In (name, code) EFFECT_MAP) /\
  (forall name code,
     In (name, code) EFFECT_MAP <-> dict_get EFFECT_MAP name = Some code).
Proof.
  split; [|split; [|split; [|split]]].
  - intros name. split.
    + intros H. cbn in H.
      repeat (destruct H as [H|H];
              [subst name; eexists; cbn; intuition reflexivity|]).
      contradiction.
    + intros (code & H). cbn in H.
      repeat (destruct H as [H|H]; [injection H as <- <-; cbn; tauto|]).
      contradiction.
  - reflexivity.
  - assert (Hall : forallb (fun i =>
               forallb (fun j =>
                 match nth_error EFFECT_LIST i, nth_error EFFECT_LIST j with
                 | Some a, Some b => negb (Nat.ltb i j) || String.ltb a b
                 | _, _ => true
                 end) (seq 0 20)) (seq 0 20) = true) by (vm_compute; reflexivity).
    intros i j a b Hij Ha Hb.
    assert (Hj : (j < 20)%nat).
    { change 20%nat with (List.length EFFECT_LIST).
      apply nth_error_Some. rewrite Hb. discriminate. }
    rewrite forallb_forall in Hall.
    specialize (Hall i ltac:(apply in_seq; lia)).
    rewrite forallb_forall in Hall.
    specialize (Hall j ltac:(apply in_seq; lia)).
    rewrite Ha, Hb in Hall.
    destruct (Nat.ltb_spec i j); [|lia]. exact Hall.
  - intros name code. split; intros H; cbn in H;
      repeat (destruct H as [H|H]; [injection H as <- <-; cbn; tauto|]);
      contradiction.
  - intros name code. split.
    + intros H. cbn in H.
      repeat (destruct H as [H|H]; [injection H as <- <-; reflexivity|]).
      contradiction.
    + intros H. unfold EFFECT_MAP in *. cbn [dict_get] in H.
      repeat
        match type of H with
        | (if String.eqb name ?k then _ else _) = _ =>
            destruct (String.eqb_spec name k) as [->|_];
            [injection H as <-; cbn; tauto|]
        end.
      discriminate H.
Qed.

(** ** [normalize_brightness] on every input *)

(** When [normalize_brightness] returns, the brightness it stored is the
    input (for [None]: the stored brightness, or 255 when none is stored)
    clamped to [2, 255], and the value returned is its percentage, between
    0 and 100.  It raises only for [None] with a stored brightness of at
    most 1, with a [TypeError] and the instance untouched. *)
Theorem normalize_brightness_range (new_brightness : option Z) (w : World) :
  match normalize_brightness new_brightness w with
  | (Ok p, w') =>
      let input :=
        match new_brightness, _brightness (self w) with
        | Some n, _ => n
        | None, Some b => b
        | None, None => 255
        end in
      _brightness (self w') = Some (clamp_brightness input) /\
      2 <= clamp_brightness input <= 255 /\
      p = clamp_brightness input * 100 / 255 /\
      0 <= p <= 100
  | (Raise e, w') =>
      new_brightness = None /\
      (exists b, _brightness (self w) = Some b /\ b <= 1) /\
      exc_type e = TypeError /\
      self w' = self w
  end.
Proof.
  assert (Hclamp : forall n,
            (if 255 <? (if n <? 2 then 2 else n) then 255
             else if n <? 2 then 2 else n) = clamp_brightness n).
  { intros n. unfold clamp_brightness.
    destruct (Z.ltb_spec n 2);
      [destruct (Z.ltb_spec 255 2)|destruct (Z.ltb_spec 255 n)]; lia. }
  assert (Hrange : forall n, 2 <= clamp_brightness n <= 255)
    by (intros n; unfold clamp_brightness; lia).
  assert (Hpct : forall n,
            int_truediv (clamp_brightness n * 100) 255 =
            clamp_brightness n * 100 / 255)
    by (intros n; apply int_truediv_percent; specialize (Hrange n); lia).
  assert (Hp : forall n, 0 <= clamp_brightness n * 100 / 255 <= 100)
    by (intros n; apply percent_range; specialize (Hrange n); lia).
  unfold normalize_brightness, bind, log, assign, modify, get_self, gets,
    ret, raise.
  cbn -[int_truediv].
  destruct new_brightness as [n|].
  - cbn -[int_truediv]. rewrite !Hclamp, !Hpct. auto.
  - destruct (_brightness (self w)) as [b|] eqn:Hb.
    + destruct (Z.ltb_spec 1 b).
      * cbn -[int_truediv]. rewrite !Hclamp, !Hpct. auto.
      * cbn. repeat split; try reflexivity. exists b. split; [reflexivity|lia].
    + assert (E : int_truediv 25500 255 = 100) by (vm_compute; reflexivity).
      cbn -[int_truediv]. rewrite ?E. unfold clamp_brightness. cbn.
      repeat split; try reflexivity; lia.
Qed.

(** ** Creating a session *)

Lemma init_known_device (address : string) (reset : bool) (delay : option Z)
    (device : BLEDevice) :
  exists s,
    __init__ (Some device) address reset delay = Ok s /\
    (if startswith (lower (device_name device)) "bj_led"
     then _turn_on_cmd s = Some [0x69; 0x96; 0x02; 0x01; 0x01] /\
          _turn_off_cmd s = Some [0x69; 0x96; 0x02; 0x01; 0x00] /\
          _model s = Some 0%nat
     else _turn_on_cmd s = None /\ _turn_off_cmd s = None /\ _model s = None) /\
    _client s = None /\ _write_uuid s = None /\ _disconnect_timer s = None /\
    _brightness s = Some 255 /\ _is_on s = None /\ _rgb_color s = None /\
    _effect s = None /\ _delay s = delay /\ _mac s = address.
Proof.
  unfold __init__, _detect_model.
  cbn -[startswith lower].
  change (lower "BJ_LED") with "bj_led".
  destruct (startswith (lower (device_name device)) "bj_led");
    cbn; eexists; (split; [reflexivity|]); cbn; repeat split.
Qed.


(** ** [set_rgb_color] with the brightness left out *)

Lemma set_rgb_color_body_default (rgb : option (Z * Z * Z)) (b : Z)
    (w : World) :
  _brightness (self w) = Some b ->
  set_rgb_color_body rgb None w = set_rgb_color_body rgb (Some b) w.
Proof.
  intros Hb. unfold set_rgb_color_body, bind, assign, modify, get_self, gets,
    ret.
  cbn -[int_truediv _write]. rewrite Hb. reflexivity.
Qed.

(** The failure of C10 happens once.  The failed call has stored the
    brightness 255, so the same call made again uses it: its attempts hand
    the unscaled colour to [_write]. *)
Theorem set_rgb_color_second_call (r g bl : Z) (w : World) :
  0 <= r <= 255 -> 0 <= g <= 255 -> 0 <= bl <= 255 ->
  _brightness (self w) = None ->
  let rgb := Some (r, g, bl) in
  let w1 := snd (set_rgb_color rgb None w) in
  (exists e, fst (set_rgb_color rgb None w) = Raise e /\ exc_type e = TypeError) /\
  _brightness (self w1) = Some 255 /\
  trace (env w1) = trace (env w) /\
  set_rgb_color_body rgb None w1 =
    _write (Some [0x69; 0x96; 0x05; 0x02; r; g; bl]) w1.
Proof.
  intros Hr Hg Hbl Hnone rgb w1. subst w1.
  rewrite (set_rgb_color_without_brightness_eq rgb w Hnone).
  cbn [fst snd].
  split; [eexists; split; reflexivity|].
  split; [reflexivity|]. split; [reflexivity|].
  rewrite (set_rgb_color_body_default rgb 255) by reflexivity.
  subst rgb. rewrite set_rgb_color_body_scaled by (assumption || lia).
  unfold scaled_channel. change (255 * 100 / 255) with 100.
  rewrite !Z.div_mul by lia. reflexivity.
Qed.

Lemma set_rgb_color_second_call_witness :
  let w := boot (set_brightness None (sample_instance (Some 5))) transport_ok in
  let w1 := snd (set_rgb_color (Some (10, 20, 30)) None w) in
  set_rgb_color_body (Some (10, 20, 30)) None w1 =
    _write (Some [0x69; 0x96; 0x05; 0x02; 10; 20; 30]) w1.
Proof.
  intros w w1.
  apply (set_rgb_color_second_call 10 20 30 w
           ltac:(lia) ltac:(lia) ltac:(lia) eq_refl).
Defined.

(** ** [set_brightness_local] *)



(** ** Commands against a missing or failing device *)

(** When the device cannot be found, a power command gives up at once: one
    connection attempt, no retry, no sleep, no write, and the lighting
    state as it was. *)
Theorem turn_on_device_not_found (w : World) (e : PyExc) :
  client_live w = false ->
  oracle (env w) (tick (env w)) = ReplyErr e ->
  exc_type e = BleakNotFoundError ->
  turn_on w =
    (Raise e,
     bump_tick (emit (EvConnect (_cached_services (self w)))
                  (emit (EvLog DEBUG "%s: Connecting") w))) /\
  turn_off w =
    (Raise e,
     bump_tick (emit (EvConnect (_cached_services (self w)))
                  (emit (EvLog DEBUG "%s: Connecting") w))).
Proof.
  intros Hlive Hor Hty.
  assert (Hnf : isinstance e [BleakNotFoundError] = true)
    by (unfold isinstance; rewrite Hty; reflexivity).
  unfold turn_on, turn_off, retry_bluetooth_connection_error, turn_on_body,
    turn_off_body, _write.
  cbn [DEFAULT_ATTEMPTS seq Nat.sub retry_loop].
  unfold bind at 1 2. unfold get_self, gets. cbn [fst snd].
  unfold bind. rewrite (ensure_connected_fails w e Hlive Hor).
  rewrite Hnf. split; reflexivity.
Qed.

Lemma turn_on_device_not_found_witness :
  let e := mkExc BleakNotFoundError "device not found" in
  let w := boot (sample_instance (Some 5)) (transport_down e) in
  turn_on w =
    (Raise e,
     bump_tick (emit (EvConnect None) (emit (EvLog DEBUG "%s: Connecting") w))).
Proof.
  intros e w.
  apply (proj1 (turn_on_device_not_found w e eq_refl eq_refl eq_refl)).
Defined.

Lemma turn_on_body_connect_fails (w : World) (e : PyExc) :
  client_live w = false ->
  oracle (env w) (tick (env w)) = ReplyErr e ->
  turn_on_body w = (Raise e, connect_failed_world w).
Proof.
  intros Hlive Hor. unfold turn_on_body, _write.
  unfold bind at 1. unfold get_self, gets. cbn [fst snd].
  unfold bind. rewrite (ensure_connected_fails w e Hlive Hor). reflexivity.
Qed.

Lemma retry_loop_backs_off {A} (func : M A) (k : nat) (rest : list nat)
    (w w1 : World) (e : PyExc) :
  func w = (Raise e, w1) ->
  exc_type e = BleakDBusError ->
  (k < 2)%nat ->
  retry_loop func 2 (k :: rest) w =
    retry_loop func 2 rest
      (emit (EvSleep BLEAK_BACKOFF_TIME)
         (emit (EvLog DEBUG
            "%s: %s error calling %s, backing off %ss, retrying (%s/%s)...")
            w1)).
Proof.
  intros Hrun Hty Hk. cbn [retry_loop]. rewrite Hrun.
  unfold isinstance. rewrite Hty. cbn [existsb issubclass ExcClass_eqb orb
    RETRY_BACKOFF_EXCEPTIONS].
  destruct (Nat.leb_spec 2 k); [lia|]. reflexivity.
Qed.

Lemma retry_loop_gives_up {A} (func : M A) (rest : list nat)
    (w w1 : World) (e : PyExc) :
  func w = (Raise e, w1) ->
  exc_type e = BleakDBusError ->
  retry_loop func 2 (2%nat :: rest) w =
    (Raise e,
     emit (EvLog DEBUG "%s: %s error calling %s, reach max attempts (%s/%s)")
       w1).
Proof.
  intros Hrun Hty. cbn [retry_loop]. rewrite Hrun.
  unfold isinstance. rewrite Hty. reflexivity.
Qed.

(** When every connection attempt fails with a [BleakDBusError], [turn_on]
    tries to connect three times, sleeps a quarter of a second after the
    first and after the second failure, never writes, and re-raises the
    error after the third. *)
Theorem turn_on_backs_off (w : World) (e : PyExc) :
  client_live w = false ->
  (forall t, oracle (env w) t = ReplyErr e) ->
  exc_type e = BleakDBusError ->
  fst (turn_on w) = Raise e /\
  trace (env (snd (turn_on w))) =
    [ EvLog DEBUG "%s: %s error calling %s, reach max attempts (%s/%s)";
      EvConnect (_cached_services (self w));
      EvLog DEBUG "%s: Connecting";
      EvSleep BLEAK_BACKOFF_TIME;
      EvLog DEBUG
        "%s: %s error calling %s, backing off %ss, retrying (%s/%s)...";
      EvConnect (_cached_services (self w));
      EvLog DEBUG "%s: Connecting";
      EvSleep BLEAK_BACKOFF_TIME;
      EvLog DEBUG
        "%s: %s error calling %s, backing off %ss, retrying (%s/%s)...";
      EvConnect (_cached_services (self w));
      EvLog DEBUG "%s: Connecting" ] ++ trace (env w) /\
  lighting (self (snd (turn_on w))) = lighting (self w).
Proof.
  intros Hlive Hor Hty.
  unfold turn_on, retry_bluetooth_connection_error.
  cbn [DEFAULT_ATTEMPTS seq Nat.sub].
  rewrite (retry_loop_backs_off turn_on_body 0 _ w _ e
             (turn_on_body_connect_fails w e Hlive (Hor _)) Hty ltac:(lia)).
  match goal with
  | |- context [retry_loop _ _ _ ?w1] =>
      rewrite (retry_loop_backs_off turn_on_body 1 _ w1 _ e
                 (turn_on_body_connect_fails w1 e Hlive (Hor _)) Hty
                 ltac:(lia))
  end.
  match goal with
  | |- context [retry_loop _ _ _ ?w2] =>
      rewrite (retry_loop_gives_up turn_on_body _ w2 _ e
                 (turn_on_body_connect_fails w2 e Hlive (Hor _)) Hty)
  end.
  repeat split.
Qed.

Lemma turn_on_backs_off_witness :
  let e := mkExc BleakDBusError "org.bluez.Error.Failed" in
  let w := boot (sample_instance (Some 5)) (transport_down e) in
  fst (turn_on w) = Raise e.
Proof.
  intros e w.
  apply (proj1 (turn_on_backs_off w e eq_refl (fun _ => eq_refl) eq_refl)).
Defined.

(** ** What reaches the wire *)



(** ** The power packets *)

#[local] Instance guarded_preorder (I : World -> Prop)
    (R : World -> World -> Prop) {HR : PreOrder R} : PreOrder (guarded I R).
Proof.
  split.
  - intros w H. split; [exact H|reflexivity].
  - intros w1 w2 w3 H12 H23 H1. destruct (H12 H1) as (H2 & R12).
    destruct (H23 H2) as (H3 & R23). split; [exact H3|].
    etransitivity; eassumption.
Qed.

Lemma write_same_commands (data : option bytearray) :
  keeps (same_on (fun s => (_turn_on_cmd s, _turn_off_cmd s))) (_write data).
Proof. keeps_with same_on_base. Qed.

(** A power command on a session whose packet is [pkt]. *)
Lemma power_packet (cmd : BJLEDInstance -> option bytearray) (v : bool)
    (pkt : option bytearray) (w : World) :
  (forall d, keeps (same_on cmd) (_write d)) ->
  (forall s, cmd (set_is_on (Some v) s) = cmd s) ->
  cmd (self w) = pkt ->
  let body := (s <- get_self ;; _write (cmd s) ;; assign (set_is_on (Some v)))%py in
  exists evs,
    extends w (snd (retry_bluetooth_connection_error body w)) evs /\
    Forall (writes_only pkt) evs /\
    (forall u, fst (retry_bluetooth_connection_error body w) = Ok u ->
       (exists c ch, In (EvWrite c ch pkt) evs) /\
       _is_on (self (snd (retry_bluetooth_connection_error body w))) = Some v).
Proof.
  intros Hcmd Hset Hpkt body.
  set (I := fun w0 : World => cmd (self w0) = pkt).
  set (R := guarded I (only_adds (writes_only pkt))).
  assert (Hrun : forall w0, I w0 ->
            body w0 =
              match _write pkt w0 with
              | (Ok _, w1) => (Ok tt, upd_self (set_is_on (Some v)) w1)
              | (Raise e, w1) => (Raise e, w1)
              end).
  { intros w0 H0. unfold body, bind, get_self, gets, assign, modify. cbn.
    unfold I in H0. rewrite H0.
    destruct (_write pkt w0) as [[[]|e] w1]; reflexivity. }
  assert (Hfail : forall w0 e w1, body w0 = (Raise e, w1) -> R w0 w1).
  { intros w0 e w1 Hb H0. rewrite (Hrun w0 H0) in Hb.
    pose proof (Hcmd pkt w0) as Hc. pose proof (write_only_writes pkt w0) as Ha.
    destruct (_write pkt w0) as [[[]|e'] w1']; [discriminate Hb|].
    injection Hb as <- <-. cbn [snd] in *. split; [|exact Ha].
    unfold I, same_on in *. congruence. }
  assert (Hquiet : forall e w0, is_quiet e = true -> R w0 (emit e w0)).
  { intros e w0 He H0. split; [exact H0|].
    exists [e]. split; [reflexivity|].
    constructor; [|constructor]. destruct e; cbn; auto; discriminate. }
  pose proof (retry_never_none body w) as Hnone.
  pose proof (@retry_loop_result R _ unit body 2 [0; 1; 2]%nat Hfail Hquiet w)
    as Hres.
  unfold retry_bluetooth_connection_error in *.
  cbn [DEFAULT_ATTEMPTS seq Nat.sub] in *.
  destruct (retry_loop body 2 [0; 1; 2]%nat w) as [[[u|]|e] w'];
    cbn [fst snd] in *.
  - destruct Hres as (wk & Hk & Hb).
    destruct (Hk Hpkt) as (Ik & evs1 & Hext1 & Hall1).
    rewrite (Hrun wk Ik) in Hb.
    pose proof (write_ok_wrote pkt wk) as Hw.
    destruct (_write pkt wk) as [[[]|e'] w1]; [|discriminate Hb].
    injection Hb as _ <-.
    destruct (Hw eq_refl) as (evs2 & Hext2 & Hall2 & c & ch & Hin).
    cbn [snd] in Hext2.
    exists (evs2 ++ evs1). split; [|split].
    + unfold extends in *. cbn. rewrite Hext2, Hext1. apply app_assoc.
    + apply Forall_app. split; assumption.
    + intros ? _. split; [|reflexivity].
      exists c, ch. apply in_or_app. left. exact Hin.
  - exfalso. apply Hnone. reflexivity.
  - destruct (Hres Hpkt) as (_ & evs & Hext & Hall).
    exists evs. split; [exact Hext|]. split; [exact Hall|]. discriminate.
Qed.

(** On a session made for a BJ_LED device, everything [turn_on] writes is
    [69 96 02 01 01] and everything [turn_off] writes is [69 96 02 01 00];
    a call that returns has written its packet and set [_is_on]. *)
Theorem power_commands_write_packets (w : World) :
  _turn_on_cmd (self w) = Some [0x69; 0x96; 0x02; 0x01; 0x01] ->
  _turn_off_cmd (self w) = Some [0x69; 0x96; 0x02; 0x01; 0x00] ->
  (exists evs,
     extends w (snd (turn_on w)) evs /\
     Forall (writes_only (Some [0x69; 0x96; 0x02; 0x01; 0x01])) evs /\
     (forall u, fst (turn_on w) = Ok u ->
        (exists c ch,
           In (EvWrite c ch (Some [0x69; 0x96; 0x02; 0x01; 0x01])) evs) /\
        _is_on (self (snd (turn_on w))) = Some true)) /\
  (exists evs,
     extends w (snd (turn_off w)) evs /\
     Forall (writes_only (Some [0x69; 0x96; 0x02; 0x01; 0x00])) evs /\
     (forall u, fst (turn_off w) = Ok u ->
        (exists c ch,
           In (EvWrite c ch (Some [0x69; 0x96; 0x02; 0x01; 0x00])) evs) /\
        _is_on (self (snd (turn_off w))) = Some false)).
Proof.
  intros Hon Hoff. split.
  - apply (power_packet _turn_on_cmd true); [|reflexivity|exact Hon].
    intros d w0. pose proof (write_same_commands d w0) as H.
    unfold same_on in *. congruence.
  - apply (power_packet _turn_off_cmd false); [|reflexivity|exact Hoff].
    intros d w0. pose proof (write_same_commands d w0) as H.
    unfold same_on in *. congruence.
Qed.

Lemma power_commands_write_packets_witness :
  let w := boot (sample_instance (Some 5)) transport_ok in
  exists evs,
    extends w (snd (turn_on w)) evs /\
    Forall (writes_only (Some [0x69; 0x96; 0x02; 0x01; 0x01])) evs /\
    (forall u, fst (turn_on w) = Ok u ->
       (exists c ch,
          In (EvWrite c ch (Some [0x69; 0x96; 0x02; 0x01; 0x01])) evs) /\
       _is_on (self (snd (turn_on w))) = Some true).
Proof.
  intros w. apply (proj1 (power_commands_write_packets w eq_refl eq_refl)).
Defined.

(** ** More invariants of the session *)

#[local] Instance same_reading_preorder {X} (f : World -> X)
  : PreOrder (same_reading f).
Proof.
  split.
  - intros w. reflexivity.
  - intros w1 w2 w3 H12 H23. unfold same_reading in *. congruence.
Qed.

Ltac same_reading_base := unfold same_reading; cbn; split_cases; reflexivity.

Lemma reset_disconnect_timer_no_connect :
  keeps (only_adds connects_uncached) _reset_disconnect_timer.
Proof. keeps_with only_adds_base. Qed.

Lemma ensure_connected_never_cached :
  keeps (maintains never_cached) _ensure_connected.
Proof.
  intros w (Hread & Hcache & Htrace).
  assert (Hreset : forall w0, never_cached w0 ->
            never_cached (snd (_reset_disconnect_timer w0))).
  { intros w0 (Hr & Hc & Ht).
    destruct (reset_disconnect_timer_fields w0) as (_ & _ & Hr' & Hc').
    destruct (reset_disconnect_timer_no_connect w0) as (evs & Hext & Hall).
    unfold never_cached. rewrite Hr', Hc', Hext.
    repeat split; try assumption. apply Forall_app. split; assumption. }
  destruct (client_live w) eqn:Hlive.
  - rewrite (ensure_connected_live w Hlive). apply Hreset.
    repeat split; assumption.
  - destruct (oracle (env w) (tick (env w))) as [svc|e] eqn:Hor.
    + rewrite (ensure_connected_connects w svc Hlive Hor). apply Hreset.
      unfold never_cached, connected_world. rewrite Hread, Hcache.
      cbn -[resolve_write]. rewrite !resolve_write_read_uuid.
      repeat split; try assumption.
      repeat (constructor; [cbn; auto|]). exact Htrace.
    + rewrite (ensure_connected_fails w e Hlive Hor).
      unfold never_cached. cbn. rewrite Hcache.
      repeat split; try assumption.
      repeat (constructor; [cbn; auto|]). exact Htrace.
Qed.

Ltac never_cached_base :=
  unfold maintains, never_cached; cbn;
  let Hr := fresh in let Hc := fresh in let Ht := fresh in
  intros (Hr & Hc & Ht); repeat split; auto;
  try (constructor;
       [ first
           [ exact I
           | match goal with
             | H : is_quiet ?e = true |- _ =>
                 destruct e; try discriminate H; exact I
             end ]
       | exact Ht ]).

Lemma perform_never_cached (a : Action) :
  keeps (maintains never_cached) (perform a).
Proof.
  pose proof ensure_connected_never_cached as Hens.
  revert a. perform_keeps never_cached_base.
Qed.

(** The service cache is dead.  In every reachable state [_read_uuid] and
    [_cached_services] are [None], and every call of
    [establish_connection] so far was made with [cached_services=None]:
    each connect discovers the services anew. *)
Theorem service_cache_never_used (w : World) :
  reachable w ->
  _read_uuid (self w) = None /\
  _cached_services (self w) = None /\
  Forall connects_uncached (trace (env w)).
Proof.
  apply (reachable_invariant never_cached).
  - intros d a r dl s t Hinit.
    destruct (init_fields d a r dl s Hinit) as (_ & _ & Hr & Hc & _).
    repeat split; try assumption. constructor.
  - apply perform_never_cached.
Qed.

Lemma service_cache_never_used_witness :
  let w := run [ATurnOn; AStop; ASetEffect "red_fade"]
             (boot (sample_instance (Some 5)) transport_ok) in
  _read_uuid (self w) = None /\
  _cached_services (self w) = None /\
  Forall connects_uncached (trace (env w)).
Proof.
  intros w. apply service_cache_never_used.
  unfold w, run. cbn [fold_left].
  do 3 apply reach_step.
  apply (reach_boot sample_device "AA:BB:CC:DD:EE:FF" false (Some 5)).
  reflexivity.
Defined.

Ltac has_brightness_base :=
  unfold maintains, has_brightness; cbn; split_cases; cbn; eauto.

Lemma perform_has_brightness (a : Action) :
  keeps (maintains has_brightness) (perform a).
Proof. revert a. perform_keeps has_brightness_base. Qed.

(** A brightness is always stored.  The session starts with 255 and every
    method that assigns [_brightness] assigns an integer, so the state in
    which [set_rgb_color] fails for want of a brightness (C10) is not
    reached through the methods of the class. *)
Theorem brightness_always_stored (w : World) :
  reachable w -> exists b, _brightness (self w) = Some b.
Proof.
  apply (reachable_invariant has_brightness).
  - intros d a r dl s t Hinit.
    destruct (init_fields d a r dl s Hinit) as (_ & _ & _ & _ & _ & Hb & _).
    exists 255. exact Hb.
  - apply perform_has_brightness.
Qed.

Lemma brightness_always_stored_witness :
  let w := run [ASetBrightnessLocal 40; ANormalizeBrightness None]
             (boot (sample_instance (Some 5)) transport_ok) in
  exists b, _brightness (self w) = Some b.
Proof.
  intros w. apply brightness_always_stored.
  unfold w, run. cbn [fold_left].
  do 2 apply reach_step.
  apply (reach_boot sample_device "AA:BB:CC:DD:EE:FF" false (Some 5)).
  reflexivity.
Defined.

(** ** Connecting once *)

Lemma reset_disconnect_timer_transport :
  keeps (same_reading (fun w => (connected (env w), tick (env w))))
    _reset_disconnect_timer.
Proof. keeps_with same_reading_base. Qed.

Lemma reset_disconnect_timer_live (w : World) :
  client_live (snd (_reset_disconnect_timer w)) = client_live w.
Proof.
  destruct (reset_disconnect_timer_fields w) as (Hc & _).
  pose proof (reset_disconnect_timer_transport w) as Ht.
  unfold same_reading in Ht. injection Ht as Hconn _.
  unfold client_live, is_connected. rewrite Hc, Hconn. reflexivity.
Qed.

Lemma reset_disconnect_timer_expected (w : World) :
  _expected_disconnect (self (snd (_reset_disconnect_timer w))) = false.
Proof.
  unfold _reset_disconnect_timer, cancel, call_later, fresh, when, log, assign,
    get_self, bind, gets, modify, ret.
  cbn. destruct (_disconnect_timer (self w)); cbn;
    destruct (_delay (self w)) as [d|]; cbn; try reflexivity;
    destruct (negb (d =? 0)); reflexivity.
Qed.

(** When [_ensure_connected] returns, the client it holds is connected and
    a disconnect is no longer expected.  Calling it again then costs
    nothing: it returns without any call to the transport and keeps the
    client. *)
Theorem ensure_connected_connects_once (w : World) :
  fst (_ensure_connected w) = Ok tt ->
  let w1 := snd (_ensure_connected w) in
  let w2 := snd (_ensure_connected w1) in
  client_live w1 = true /\
  _expected_disconnect (self w1) = false /\
  fst (_ensure_connected w1) = Ok tt /\
  tick (env w2) = tick (env w1) /\
  _client (self w2) = _client (self w1) /\
  client_live w2 = true.
Proof.
  intros Hok. cbn zeta.
  assert (Hlive1 : client_live (snd (_ensure_connected w)) = true).
  { destruct (client_live w) eqn:Hlive.
    - rewrite (ensure_connected_live w Hlive).
      rewrite reset_disconnect_timer_live. exact Hlive.
    - destruct (oracle (env w) (tick (env w))) as [svc|e] eqn:Hor.
      + rewrite (ensure_connected_connects w svc Hlive Hor).
        rewrite reset_disconnect_timer_live.
        unfold client_live, is_connected, connected_world, mem_nat. cbn.
        rewrite Nat.eqb_refl. reflexivity.
      + rewrite (ensure_connected_fails w e Hlive Hor) in Hok.
        discriminate Hok. }
  assert (Hexp : _expected_disconnect (self (snd (_ensure_connected w))) = false).
  { destruct (client_live w) eqn:Hlive.
    - rewrite (ensure_connected_live w Hlive).
      apply reset_disconnect_timer_expected.
    - destruct (oracle (env w) (tick (env w))) as [svc|e] eqn:Hor.
      + rewrite (ensure_connected_connects w svc Hlive Hor).
        apply reset_disconnect_timer_expected.
      + rewrite (ensure_connected_fails w e Hlive Hor) in Hok.
        discriminate Hok. }
  split; [exact Hlive1|]. split; [exact Hexp|].
  rewrite (ensure_connected_live _ Hlive1).
  split; [apply reset_disconnect_timer_ok|].
  pose proof (reset_disconnect_timer_transport (snd (_ensure_connected w)))
    as Ht.
  unfold same_reading in Ht. injection Ht as _ Htick.
  split; [exact Htick|].
  destruct (reset_disconnect_timer_fields (snd (_ensure_connected w)))
    as (Hc & _).
  split; [exact Hc|].
  rewrite reset_disconnect_timer_live. exact Hlive1.
Qed.

Lemma ensure_connected_connects_once_witness :
  let w := boot (sample_instance (Some 5)) transport_ok in
  let w1 := snd (_ensure_connected w) in
  let w2 := snd (_ensure_connected w1) in
  client_live w1 = true /\
  _expected_disconnect (self w1) = false /\
  fst (_ensure_connected w1) = Ok tt /\
  tick (env w2) = tick (env w1) /\
  _client (self w2) = _client (self w1) /\
  client_live w2 = true.
Proof.
  intros w. apply (ensure_connected_connects_once w). reflexivity.
Defined.

(** ** Expected and unexpected disconnects *)

Lemma disconnected_expected (c : BleakClientWithServiceCache) :
  keeps (guarded (fun w => _expected_disconnect (self w) = true)
           (only_adds not_warning)) (_disconnected c).
Proof.
  intros w H. unfold _disconnected, bind, get_self, gets, log, modify. cbn.
  rewrite H. cbn. split; [exact H|].
  exists [EvLog DEBUG "%s: Disconnected from device"].
  split; [reflexivity|]. repeat constructor.
Qed.

Ltac expected_base :=
  let H := fresh in
  intros H; split; [cbn; exact H|only_adds_base].

(** A teardown is never reported as a surprise: whatever [stop] and
    [_execute_timed_disconnect] log, also through the disconnected callback
    of the transport, is no warning. *)
Theorem teardown_never_warns (w : World) :
  (exists evs, extends w (snd (stop w)) evs /\ Forall not_warning evs) /\
  (exists evs,
     extends w (snd (_execute_timed_disconnect w)) evs /\
     Forall not_warning evs).
Proof.
  assert (Hdis : forall w0, exists evs,
            extends w0 (snd (_execute_disconnect w0)) evs /\
            Forall not_warning evs).
  { intros w0. rewrite execute_disconnect_run.
    match goal with
    | |- context [snd (?rest ?w1)] =>
        assert (Hk : keeps (guarded (fun w => _expected_disconnect (self w) = true)
                              (only_adds not_warning)) rest)
    end.
    { pose proof disconnected_expected as Hcb.
      keeps_with expected_base. }
    match goal with
    | |- context [snd (?rest ?w1)] => destruct (Hk w1 eq_refl) as (_ & Hadds)
    end.
    exact Hadds. }
  split.
  - unfold stop, bind, log, modify. cbn [fst snd].
    destruct (Hdis (emit (EvLog DEBUG "%s: Stop") w)) as (evs & Hext & Hall).
    exists (evs ++ [EvLog DEBUG "%s: Stop"]). split.
    + unfold extends in *. rewrite Hext. cbn. rewrite <- app_assoc. reflexivity.
    + apply Forall_app. split; [exact Hall|]. repeat constructor.
  - unfold _execute_timed_disconnect, bind, log, modify. cbn [fst snd].
    destruct (Hdis (emit (EvLog DEBUG "%s: Disconnecting after timeout of %s") w))
      as (evs & Hext & Hall).
    exists (evs ++ [EvLog DEBUG "%s: Disconnecting after timeout of %s"]). split.
    + unfold extends in *. rewrite Hext. cbn. rewrite <- app_assoc. reflexivity.
    + apply Forall_app. split; [exact Hall|]. repeat constructor.
Qed.

Lemma mem_remove_nat (x : nat) (l : list nat) :
  mem_nat x (remove_nat x l) = false.
Proof.
  unfold mem_nat, remove_nat. induction l as [|y r IH]; [reflexivity|].
  cbn. destruct (Nat.eqb x y) eqn:Hxy; cbn; [exact IH|].
  rewrite Hxy. exact IH.
Qed.

(** A link lost while the session holds a connected client and expects no
    disconnect is logged as one warning.  The instance is left as it was,
    stale client included, but the client no longer counts as connected,
    so the next command connects again. *)
Theorem link_drop_warns (w : World) (c : BleakClientWithServiceCache) :
  _client (self w) = Some c ->
  is_connected c w = true ->
  _expected_disconnect (self w) = false ->
  let w' := snd (link_drops w) in
  fst (link_drops w) = Ok tt /\
  trace (env w') =
    EvLog WARNING "%s: Device unexpectedly disconnected" :: trace (env w) /\
  self w' = self w /\
  client_live w' = false.
Proof.
  intros Hc Hlive Hexp. cbn zeta.
  unfold link_drops, _disconnected, when, bind, get_self, gets, log, modify.
  cbn. rewrite Hc. cbn. rewrite Hlive. cbn. rewrite Hexp. cbn.
  repeat split.
  unfold client_live, is_connected. cbn. rewrite Hc. apply mem_remove_nat.
Qed.

Lemma link_drop_warns_witness :
  let w := step ATurnOn (boot (sample_instance (Some 5)) transport_ok) in
  let w' := snd (link_drops w) in
  fst (link_drops w) = Ok tt /\
  trace (env w') =
    EvLog WARNING "%s: Device unexpectedly disconnected" :: trace (env w) /\
  self w' = self w /\
  client_live w' = false.
Proof.
  intros w.
  apply (link_drop_warns w
           (mkClient 0 ["0000ee01-0000-1000-8000-00805f9b34fb"]));
    reflexivity.
Defined.

(** ** The idle timer at work *)

Lemma execute_timed_disconnect_tasks :
  keeps (same_reading (fun w => (tasks (env w), timers (env w),
                                 _disconnect_timer (self w))))
    _execute_timed_disconnect.
Proof. keeps_with same_reading_base. Qed.

(** When a pending idle timer fires, the instance forgets the timer and a
    task is created; when that task has run, no client and no write
    characteristic are held, whether or not the transport's disconnect
    succeeded, and no timer is pending. *)
Theorem idle_timeout_disconnects (w : World) (h : nat) :
  timer_ok w ->
  mem_nat h (timers (env w)) = true ->
  let w1 := step (ATimerFires h) w in
  let w2 := step ATaskRuns w1 in
  _disconnect_timer (self w1) = None /\
  timers (env w1) = [] /\
  tasks (env w1) = S (tasks (env w)) /\
  _client (self w2) = None /\
  _write_uuid (self w2) = None /\
  timers (env w2) = [] /\
  tasks (env w2) = tasks (env w).
Proof.
  intros Hok Hmem. cbn zeta.
  assert (Hone : timers (env w) = [h]).
  { destruct Hok as [Hnil|(h0 & Hh0 & _)].
    - rewrite Hnil in Hmem. discriminate Hmem.
    - rewrite Hh0 in *. unfold mem_nat in Hmem. cbn in Hmem.
      rewrite orb_false_r in Hmem. apply Nat.eqb_eq in Hmem. subst h0.
      reflexivity. }
  assert (H1 : step (ATimerFires h) w =
               emit EvCreateTask
                 (set_tasks (S (tasks (env w)))
                    (upd_self (set_disconnect_timer None)
                       (set_timers [] w)))).
  { unfold step, perform, timer_fires, _disconnect, create_task, when, assign,
      bind, gets, modify, ret. cbn. rewrite Hmem. cbn.
    rewrite Hone, remove_nat_same. reflexivity. }
  rewrite H1. cbn [self env emit upd_env upd_self set_tasks set_timers
                   _disconnect_timer set_disconnect_timer timers tasks].
  split; [reflexivity|]. split; [reflexivity|]. split; [reflexivity|].
  unfold step, perform, task_runs. cbn [tasks env emit upd_env set_tasks].
  match goal with
  | |- context [_execute_timed_disconnect ?w0] =>
      pose proof (execute_timed_disconnect_tasks w0) as Hk;
      assert (Hclear : _client (self (snd (_execute_timed_disconnect w0))) = None /\
                       _write_uuid (self (snd (_execute_timed_disconnect w0))) = None);
      [|destruct (_execute_timed_disconnect w0) as [[u|e] w2]]
  end.
  { unfold _execute_timed_disconnect, bind, log, modify. cbn [fst snd].
    match goal with
    | |- context [_execute_disconnect ?w0] =>
        destruct (execute_disconnect_clears w0) as (Hc & Hu & _)
    end.
    split; assumption. }
  - unfold same_reading in Hk. cbn in Hk, Hclear. injection Hk as Ht Hti _.
    destruct Hclear as (Hc & Hu). cbn. repeat split; assumption.
  - unfold same_reading in Hk. cbn in Hk, Hclear. injection Hk as Ht Hti _.
    destruct Hclear as (Hc & Hu). cbn. repeat split; assumption.
Qed.

Lemma idle_timeout_disconnects_witness :
  let w := step ATurnOn (boot (sample_instance (Some 5)) transport_ok) in
  let w2 := step ATaskRuns (step (ATimerFires 1) w) in
  _client (self w) <> None /\
  _client (self w2) = None /\ _write_uuid (self w2) = None.
Proof.
  intros w w2. split; [discriminate|].
  assert (Hok : timer_ok w).
  { apply reachable_timer_ok. apply reach_step.
    apply (reach_boot sample_device "AA:BB:CC:DD:EE:FF" false (Some 5)).
    reflexivity. }
  destruct (idle_timeout_disconnects w 1 Hok eq_refl)
    as (_ & _ & _ & Hc & Hu & _).
  split; assumption.
Defined.

(** [stop] does not cancel the idle timer: a timer pending before the call
    is pending after it, and the instance still holds its handle. *)
Theorem stop_leaves_timer (w : World) :
  timers (env (snd (stop w))) = timers (env w) /\
  _disconnect_timer (self (snd (stop w))) = _disconnect_timer (self w) /\
  tasks (env (snd (stop w))) = tasks (env w).
Proof.
  assert (Hk : keeps (same_reading (fun w => (tasks (env w), timers (env w),
                                              _disconnect_timer (self w))))
                 stop) by keeps_with same_reading_base.
  specialize (Hk w). unfold same_reading in Hk. injection Hk as Ht Hti Hd.
  repeat split; assumption.
Qed.

(** ** Every command that returns restarts the idle timer *)

#[local] Instance timer_progress_preorder : PreOrder timer_progress.
Proof.
  split.
  - intros w. repeat split; auto.
  - intros w1 w2 w3 (Ha & Hb & Hc) (Ha' & Hb' & Hc'). repeat split.
    + auto.
    + congruence.
    + lia.
Qed.













(** ** A device that is not a BJ_LED *)

(** Nothing checks that the model was detected.  On a session made for a
    device whose name is not in [NAME_ARRAY], the power commands hand [None]
    to the transport as the data to write: every write of [turn_on] and of
    [turn_off] carries [None], and a call that returns has made one. *)
Theorem power_commands_unrecognised_device (device : BLEDevice)
    (address : string) (reset : bool) (delay : option Z)
    (s : BJLEDInstance) (transport : nat -> Reply) :
  startswith (lower (device_name device)) "bj_led" = false ->
  __init__ (Some device) address reset delay = Ok s ->
  let w := boot s transport in
  (exists evs,
     extends w (snd (turn_on w)) evs /\
     Forall (writes_only None) evs /\
     (forall u, fst (turn_on w) = Ok u ->
        (exists c ch, In (EvWrite c ch None) evs) /\
        _is_on (self (snd (turn_on w))) = Some true)) /\
  (exists evs,
     extends w (snd (turn_off w)) evs /\
     Forall (writes_only None) evs /\
     (forall u, fst (turn_off w) = Ok u ->
        (exists c ch, In (EvWrite c ch None) evs) /\
        _is_on (self (snd (turn_off w))) = Some false)).
Proof.
  intros Hname Hinit w.
  destruct (init_known_device address reset delay device)
    as (s' & Hs' & Hcmds & _).
  rewrite Hinit in Hs'. injection Hs' as <-.
  rewrite Hname in Hcmds. destruct Hcmds as (Hon & Hoff & _).
  split.
  - apply (power_packet _turn_on_cmd true); [|reflexivity|exact Hon].
    intros d w0. pose proof (write_same_commands d w0) as H.
    unfold same_on in *. congruence.
  - apply (power_packet _turn_off_cmd false); [|reflexivity|exact Hoff].
    intros d w0. pose proof (write_same_commands d w0) as H.
    unfold same_on in *. congruence.
Qed.

Lemma power_commands_unrecognised_device_witness :
  let device := mkDevice "LEDnetWF0200" "11:22:33:44:55:66" (-70) in
  let s := mkInstance "11:22:33:44:55:66" false None device None None None
             false None None (Some 255) None None None None None None in
  let w := boot s transport_ok in
  exists evs,
    extends w (snd (turn_on w)) evs /\
    Forall (writes_only None) evs /\
    (forall u, fst (turn_on w) = Ok u ->
       (exists c ch, In (EvWrite c ch None) evs) /\
       _is_on (self (snd (turn_on w))) = Some true).
Proof.
  intros device s w.
  apply (proj1 (power_commands_unrecognised_device device "11:22:33:44:55:66"
                  false None s transport_ok eq_refl eq_refl)).
Defined.
